(** * The quiz generator of [src/app/page.tsx]

    A shallow embedding of the [App] component and of its child
    [QuizDisplay]: the retrying request to the generation endpoint
    ([_fetchQuizQuestions]), the two callers [handleGenerate] and
    [handleLoadMore], the recording of answers ([handleOptionClick] behind
    the [onClick] guard) and the score ([calculateScore]).

    The values that travel through the program are JavaScript values that
    came out of [JSON.parse]; the program never checks their shape, so the
    embedding keeps them untyped ([JSValue]) and writes out where a
    property read or a render throws.  The platform (the [fetch] transport,
    [response.json()], [JSON.parse]) is an input of the model ([World]). *)

From stdpp Require Import gmap strings list pretty.
From Stdlib Require Import ZArith Ascii.

Local Set Warnings "-register-all".
Local Open Scope Z_scope.
Local Open Scope nat_scope.

(** ** JavaScript values and the operators the program applies to them *)

Module JS.

(** Numbers are the integer-valued ones: every operator below treats a
    fractional number as it treats a non-zero integer. *)
Inductive JSValue : Type :=
| JUndefined
| JNull
| JBool (b : bool)
| JNumber (n : Z)
| JString (s : string)
| JArray (items : list JSValue)
| JObject (fields : list (string * JSValue)).

(** An exception value: an [Error] object with its [name] and [message]. *)
Record Exn : Type := mkExn { name : string; message : string }.

Definition Error (msg : string) : Exn := mkExn "Error" msg.

(** Reading a property of [null] or [undefined]. *)
Definition TypeError_nullish : Exn :=
  mkExn "TypeError" "Cannot read properties of null or undefined".

(** [!v] is [negb (truthy v)]. *)
Definition truthy (v : JSValue) : bool :=
  match v with
  | JUndefined | JNull => false
  | JBool b => b
  | JNumber n => negb (n =? 0)%Z
  | JString s => negb (String.eqb s "")
  | JArray _ | JObject _ => true
  end.

Definition nullish (v : JSValue) : bool :=
  match v with JUndefined | JNull => true | _ => false end.

(** Own property [k] of an object; [undefined] when absent. *)
Fixpoint lookup_field (k : string) (fs : list (string * JSValue)) : JSValue :=
  match fs with
  | [] => JUndefined
  | (k', v) :: fs' => if String.eqb k k' then v else lookup_field k fs'
  end.

(** [v.k] for a value that is not nullish and a name [k] among those the
    program reads ([candidates], [content], [parts], [text], [question],
    [options], [correctAnswer]): arrays, strings, numbers and booleans have
    no such property. *)
Definition prop (v : JSValue) (k : string) : JSValue :=
  match v with
  | JObject fs => lookup_field k fs
  | _ => JUndefined
  end.

(** [v.k], which throws on [null] and [undefined]. *)
Definition dot (v : JSValue) (k : string) : Exn + JSValue :=
  if nullish v then inl TypeError_nullish else inr (prop v k).

(** [v?.k] *)
Definition opt_prop (v : JSValue) (k : string) : JSValue :=
  if nullish v then JUndefined else prop v k.

(** [v?.[i]] *)
Definition opt_index (v : JSValue) (i : nat) : JSValue :=
  match v with
  | JArray items => nth i items JUndefined
  | JString s =>
      match String.get i s with
      | Some c => JString (String c EmptyString)
      | None => JUndefined
      end
  | JObject fs => lookup_field (pretty i) fs
  | _ => JUndefined
  end.

(** [v.length] for a value that is not nullish. *)
Definition length_of (v : JSValue) : JSValue :=
  match v with
  | JArray items => JNumber (Z.of_nat (length items))
  | JString s => JNumber (Z.of_nat (String.length s))
  | JObject fs => lookup_field "length" fs
  | _ => JUndefined
  end.

(** [a === b].  Arrays and objects are compared by identity; every array
    or object the program compares sits at its own place in a tree built by
    [JSON.parse], so two of them are never the same object. *)
Definition strict_eq (a b : JSValue) : bool :=
  match a, b with
  | JUndefined, JUndefined => true
  | JNull, JNull => true
  | JBool x, JBool y => Bool.eqb x y
  | JNumber x, JNumber y => (x =? y)%Z
  | JString x, JString y => String.eqb x y
  | _, _ => false
  end.

(** [...v] inside an array literal: the elements of an array, the
    characters of a string, [None] (a [TypeError]) for what is not
    iterable. *)
Definition spread (v : JSValue) : option (list JSValue) :=
  match v with
  | JArray items => Some items
  | JString s => Some ((fun c => JString (String c EmptyString)) <$> String.list_ascii_of_string s)
  | _ => None
  end.

(** What React accepts as a child: anything but a plain object. *)
Fixpoint valid_child (v : JSValue) : bool :=
  match v with
  | JObject _ => false
  | JArray items => forallb valid_child items
  | _ => true
  end.

(** Strings are sequences of characters with code points below 256; the
    white space and line terminators of ECMAScript in that range. *)
Definition is_white_space (c : ascii) : bool :=
  let n := nat_of_ascii c in
  (n =? 9) || (n =? 10) || (n =? 11) || (n =? 12) || (n =? 13) || (n =? 32) || (n =? 160).

Fixpoint trim_start (l : list ascii) : list ascii :=
  match l with
  | c :: l' => if is_white_space c then trim_start l' else l
  | [] => []
  end.

(** [s.trim()] *)
Definition trim (s : string) : string :=
  String.string_of_list_ascii
    (rev (trim_start (rev (trim_start (String.list_ascii_of_string s))))).

End JS.

Import JS.

(** ** The data model *)

(** An element of the array that [QUIZ_SCHEMA] asks the service for: an
    object with a string [question], an array [options] of strings and a
    string [correctAnswer].  The schema fixes neither the number of options
    nor that the answer is one of them. *)
Record QuestionRecord : Type := mkQuestion {
  question : string;
  options : list string;
  correctAnswer : string
}.

(** The JavaScript object of a record. *)
Definition to_js (q : QuestionRecord) : JSValue :=
  JObject [("question", JString (question q));
           ("options", JArray (JString <$> options q));
           ("correctAnswer", JString (correctAnswer q))].

(** [userAnswers]: the state of [QuizDisplay], an object keyed by the index
    of the question. *)
Abbreviation Answers := (gmap nat JSValue).

(** [userAnswers[i]] *)
Definition answer_at (userAnswers : Answers) (i : nat) : JSValue :=
  default JUndefined (userAnswers !! i).

(** ** [QuizDisplay] *)

(** [setUserAnswers(prev => ({...prev, [questionIndex]: selectedOption}))] *)
Definition handleOptionClick (questionIndex : nat) (selectedOption : JSValue)
    (userAnswers : Answers) : Answers :=
  <[questionIndex := selectedOption]> userAnswers.

(** [const isAnswered = selectedAnswer !== undefined] *)
Definition isAnswered (userAnswers : Answers) (qIndex : nat) : bool :=
  negb (strict_eq (answer_at userAnswers qIndex) JUndefined).

(** The handler of an option of question [qIndex]:
    [() => !isAnswered && handleOptionClick(qIndex, option)]. *)
Definition onClick (qIndex : nat) (option : JSValue) (userAnswers : Answers) : Answers :=
  if isAnswered userAnswers qIndex then userAnswers
  else handleOptionClick qIndex option userAnswers.

(** The body of [quizData.forEach((q, index) => ...)] run over the elements
    from position [index] on, with the running [score]; [None] when
    [q.correctAnswer] throws. *)
Fixpoint forEach_score (userAnswers : Answers) (qs : list JSValue)
    (index score : nat) : option nat :=
  match qs with
  | [] => Some score
  | q :: rest =>
      match dot q "correctAnswer" with
      | inl _ => None
      | inr c =>
          forEach_score userAnswers rest (S index)
            (if strict_eq (answer_at userAnswers index) c then S score else score)
      end
  end.

(** [calculateScore()]; [None] when it throws ([forEach] exists on arrays
    only). *)
Definition calculateScore (quizData : JSValue) (userAnswers : Answers) : option nat :=
  match quizData with
  | JArray qs => forEach_score userAnswers qs 0 0
  | _ => None
  end.

(** What one card of [quizData.map((quizItem, qIndex) => ...)] needs in
    order not to throw: [quizItem.options.map] exists, and the question, the
    options and (once answered) the correct answer are valid children. *)
Definition card_renders (userAnswers : Answers) (qIndex : nat) (quizItem : JSValue) : bool :=
  valid_child (prop quizItem "question")
  && match prop quizItem "options" with
     | JArray os => forallb valid_child os
     | _ => false
     end
  && (if isAnswered userAnswers qIndex
      then valid_child (prop quizItem "correctAnswer") else true).

(** What [QuizDisplay] returns: the placeholder of an empty quiz, or the
    quiz whose header reads [Your score: score / total]. *)
Inductive View : Type :=
| NoQuestions
| QuizView (score total : nat).

(** The render of [QuizDisplay]; [None] when it throws. *)
Definition QuizDisplay (quizData : JSValue) (userAnswers : Answers) : option View :=
  if negb (truthy quizData) || strict_eq (length_of quizData) (JNumber 0)
  then Some NoQuestions
  else
    match calculateScore quizData userAnswers with
    | None => None
    | Some score =>
        match quizData with
        | JArray qs =>
            if forallb id (imap (card_renders userAnswers) qs)
            then Some (QuizView score (length qs)) else None
        | _ => None
        end
    end.

(** ** The state of [App] *)

Record AppState : Type := mkApp {
  topic : string;
  difficultyLevel : string;
  quizLanguage : string;
  quizData : JSValue;
  loading : bool;
  loadingMore : bool;
  error : option string;
  hasGenerated : bool
}.

Definition setQuizData (v : JSValue) (a : AppState) : AppState :=
  mkApp (topic a) (difficultyLevel a) (quizLanguage a) v
        (loading a) (loadingMore a) (error a) (hasGenerated a).
Definition setLoading (b : bool) (a : AppState) : AppState :=
  mkApp (topic a) (difficultyLevel a) (quizLanguage a) (quizData a)
        b (loadingMore a) (error a) (hasGenerated a).
Definition setLoadingMore (b : bool) (a : AppState) : AppState :=
  mkApp (topic a) (difficultyLevel a) (quizLanguage a) (quizData a)
        (loading a) b (error a) (hasGenerated a).
Definition setError (e : option string) (a : AppState) : AppState :=
  mkApp (topic a) (difficultyLevel a) (quizLanguage a) (quizData a)
        (loading a) (loadingMore a) e (hasGenerated a).
Definition setHasGenerated (b : bool) (a : AppState) : AppState :=
  mkApp (topic a) (difficultyLevel a) (quizLanguage a) (quizData a)
        (loading a) (loadingMore a) (error a) b.

(** [useState] of [App] at the first render. *)
Definition initial : AppState :=
  mkApp "" "Medium" "English" (JArray []) false false None false.

(** The instance of [QuizDisplay] under [App]: React keeps the state of a
    component while it is rendered at its place and discards it when it is
    not; a new instance starts from [useState({})]. *)
Inductive Screen : Type :=
| Unmounted
| Mounted (userAnswers : Answers).

Definition answers (quiz : Screen) : Answers :=
  match quiz with
  | Mounted userAnswers => userAnswers
  | Unmounted => ∅
  end.

(** The page: the state of [App] with the instance of [QuizDisplay], or
    nothing once a render has thrown (no error boundary in the file). *)
Inductive Page : Type :=
| Live (app : AppState) (quiz : Screen)
| Crashed.

(** [hasGenerated && !loading && !error] *)
Definition shows_quiz (a : AppState) : bool :=
  hasGenerated a && negb (loading a)
  && negb (match error a with Some msg => negb (String.eqb msg "") | None => false end).

(** A render of [App] after a batch of state updates. *)
Definition render (a : AppState) (quiz : Screen) : Page :=
  if shows_quiz a then
    match QuizDisplay (quizData a) (answers quiz) with
    | Some _ => Live a (Mounted (answers quiz))
    | None => Crashed
    end
  else Live a Unmounted.

(** ** The request *)

Definition QUIZ_SCHEMA : JSValue :=
  JObject [
    ("type", JString "ARRAY");
    ("description", JString "A list of multiple-choice questions.");
    ("items", JObject [
      ("type", JString "OBJECT");
      ("properties", JObject [
        ("question", JObject [
          ("type", JString "STRING");
          ("description", JString "The text of the multiple-choice question.")]);
        ("options", JObject [
          ("type", JString "ARRAY");
          ("items", JObject [("type", JString "STRING")]);
          ("description", JString "Exactly four possible answer choices for the question.")]);
        ("correctAnswer", JObject [
          ("type", JString "STRING");
          ("description", JString "The exact text of the correct answer, which must match one of the options.")])]);
      ("required", JArray [JString "question"; JString "options"; JString "correctAnswer"])])].

Definition systemInstruction (a : AppState) (count : nat) : string :=
  "You are a helpful education assistant. Your task is to generate exactly "
  +:+ pretty count +:+ " high-quality, professional, **" +:+ difficultyLevel a
  +:+ "** multiple-choice questions about the user's requested topic. **All questions, options, and answers MUST be in the "
  +:+ quizLanguage a
  +:+ " language.** Your response MUST be a single JSON array that strictly adheres to the provided schema. Do not include any introductory or concluding text outside of the JSON block.".

Definition userQuery (a : AppState) (count : nat) : string :=
  "Generate " +:+ pretty count +:+ " **" +:+ difficultyLevel a
  +:+ "** multiple-choice questions about the topic: " +:+ topic a
  +:+ ". Respond in the " +:+ quizLanguage a +:+ " language.".

Definition payload (a : AppState) (count : nat) : JSValue :=
  JObject [
    ("contents", JArray [JObject [("parts", JArray [JObject [("text", JString (userQuery a count))]])]]);
    ("systemInstruction", JObject [("parts", JArray [JObject [("text", JString (systemInstruction a count))]])]);
    ("generationConfig", JObject [
      ("responseMimeType", JString "application/json");
      ("responseSchema", QUIZ_SCHEMA)])].

(** ** The platform *)

(** A response: its [ok] flag and what awaiting [response.json()] gives. *)
Record Response : Type := mkResponse {
  ok : bool;
  json : Exn + JSValue
}.

(** How a call of [fetch] settles. *)
Inductive Settled : Type :=
| Rejects (e : Exn)
| Resolves (r : Response).

(** One run of [_fetchQuizQuestions] sees the platform through [fetch w i],
    the outcome of its call number [i] of [fetch] (counted from 0), and
    [JSON_parse w v], the outcome of [JSON.parse(v)]. *)
Record World : Type := mkWorld {
  fetch : nat → Settled;
  JSON_parse : JSValue → Exn + JSValue
}.

(** What a run does that is seen from outside, in order. *)
Inductive Event : Type :=
| Fetch (body : JSValue)
| Sleep (ms : nat)
| ConsoleError (e : Exn).

(** ** [_fetchQuizQuestions] *)

(** [for (let i = 0; i < 3; i++) { try { ... } catch (e) { ... } }] from the
    iteration [i] on, with [fuel = 3 - i] iterations left and the current
    value of [response].  The result is the exception the loop throws or the
    [response] it leaves, with the calls and waits made. *)
Fixpoint retry_loop (w : World) (body : JSValue) (fuel i : nat)
    (response : option Response) : (Exn + option Response) * list Event :=
  match fuel with
  | O => (inr response, [])
  | S fuel' =>
      match fetch w i with
      | Resolves r =>
          if ok r then (inr (Some r), [Fetch body])
          else
            let '(res, tr) := retry_loop w body fuel' (S i) (Some r) in
            (res, Fetch body :: tr)
      | Rejects e =>
          if i <? 2 then
            let '(res, tr) := retry_loop w body fuel' (S i) response in
            (res, Fetch body :: Sleep (2 ^ i * 1000) :: tr)
          else (inl e, [Fetch body])
      end
  end.

Definition malformed : Exn :=
  Error "API returned an empty or malformed response structure.".

(** [result.candidates?.[0]?.content?.parts?.[0]?.text]; only the first
    read, of [result], can throw. *)
Definition jsonText_of (result : JSValue) : Exn + JSValue :=
  match dot result "candidates" with
  | inl e => inl e
  | inr candidates =>
      inr (opt_prop
             (opt_index
                (opt_prop (opt_prop (opt_index candidates 0) "content") "parts") 0)
             "text")
  end.

(** From [const result = await response.json()] to [JSON.parse(jsonText)]:
    the exception thrown, or [parsedData]. *)
Definition read_response (w : World) (response : option Response) : Exn + JSValue :=
  match response with
  | None => inl TypeError_nullish
  | Some r =>
      match json r with
      | inl e => inl e
      | inr result =>
          match jsonText_of result with
          | inl e => inl e
          | inr jsonText =>
              if negb (truthy jsonText) then inl malformed
              else JSON_parse w jsonText
          end
      end
  end.

(** The [try] block up to the call of [updateData]. *)
Definition request (w : World) (body : JSValue) : (Exn + JSValue) * list Event :=
  let '(res, tr) := retry_loop w body 3 0 None in
  (match res with
   | inl e => inl e
   | inr response => read_response w response
   end, tr).

Definition failure_message : string :=
  "Failed to generate quiz. Please try a different topic or check the console for details.".

(** [isInitial ? setLoading(b) : setLoadingMore(b)] *)
Definition set_flag (isInitial b : bool) (a : AppState) : AppState :=
  if isInitial then setLoading b a else setLoadingMore b a.

(** The state updates after the last [await], then the render: the
    [updateData] of a parsed answer ([None] when the updater it queued
    throws), or the [catch] branch; then [finally]. *)
Definition conclude (updateData : JSValue → AppState → option AppState)
    (isInitial : bool) (outcome : Exn + JSValue) (a : AppState) (quiz : Screen) : Page :=
  match outcome with
  | inr parsedData =>
      match updateData parsedData a with
      | Some a' => render (set_flag isInitial false a') quiz
      | None => Crashed
      end
  | inl _ => render (set_flag isInitial false (setError (Some failure_message) a)) quiz
  end.

Definition logged (outcome : Exn + JSValue) : list Event :=
  match outcome with
  | inl e => [ConsoleError e]
  | inr _ => []
  end.

(** [_fetchQuizQuestions(count, updateData, isInitial)] called on the page
    [a], [quiz]: the updates before the first [await] and their render, the
    request, the updates after it and their render.  No other event of the
    page comes in between. *)
Definition _fetchQuizQuestions (w : World) (count : nat)
    (updateData : JSValue → AppState → option AppState) (isInitial : bool)
    (a : AppState) (quiz : Screen) : Page * list Event :=
  let a1 := setError None (set_flag isInitial true a) in
  let '(outcome, tr) := request w (payload a count) in
  (match render a1 quiz with
   | Live a2 quiz2 => conclude updateData isInitial outcome a2 quiz2
   | Crashed => Crashed
   end, tr ++ logged outcome).

(** [handleGenerate]: [updateData] is [setQuizData]. *)
Definition handleGenerate (w : World) (a : AppState) (quiz : Screen) : Page * list Event :=
  if negb (truthy (JString (trim (topic a)))) then (Live a quiz, [])
  else
    _fetchQuizQuestions w 30 (fun parsedData a' => Some (setQuizData parsedData a')) true
      (setQuizData (JArray []) (setHasGenerated true a)) quiz.

(** [setQuizData(prev => [...prev, ...newQuestions])] *)
Definition append_questions (newQuestions : JSValue) (a : AppState) : option AppState :=
  match spread (quizData a), spread newQuestions with
  | Some prev, Some new => Some (setQuizData (JArray (prev ++ new)) a)
  | _, _ => None
  end.

(** [handleLoadMore] *)
Definition handleLoadMore (w : World) (a : AppState) (quiz : Screen) : Page * list Event :=
  _fetchQuizQuestions w 10 append_questions false a quiz.

(** ** The specification's vocabulary *)

(** The per-record validation the specification asks for: a non-empty
    question, exactly 4 unique options, an answer among the options. *)
Definition spec_valid_record (q : QuestionRecord) : bool :=
  negb (String.eqb (question q) "")
  && (length (options q) =? 4)
  && bool_decide (NoDup (options q))
  && bool_decide (correctAnswer q ∈ options q).

(** [answers[i]] equals [questions[i].correctAnswer]. *)
Definition is_correct (qs : list QuestionRecord) (userAnswers : Answers) (i : nat) : bool :=
  match qs !! i, userAnswers !! i with
  | Some q, Some (JString s) => String.eqb s (correctAnswer q)
  | _, _ => false
  end.

(** The number of indices of [qs] whose answer is the correct one. *)
Definition correctCount (qs : list QuestionRecord) (userAnswers : Answers) : nat :=
  length (List.filter (is_correct qs userAnswers) (seq 0 (length qs))).

(** A page is consistent when the instance of [QuizDisplay] exists only
    where [App] renders it; [render] leaves the page so. *)
Definition consistent (a : AppState) (quiz : Screen) : Prop :=
  match quiz with
  | Mounted _ => shows_quiz a = true
  | Unmounted => True
  end.

(** Three calls of [fetch], with a wait of [2^0] seconds after the first
    and of [2^1] seconds after the second. *)
Definition three_attempts (body : JSValue) : list Event :=
  [Fetch body; Sleep 1000; Fetch body; Sleep 2000; Fetch body].

(** The page a run leaves when its request fails: the error is shown and
    [QuizDisplay] is not rendered. *)
Definition failed_page (isInitial : bool) (a : AppState) (quiz : Screen) : Page :=
  match render (setError None (set_flag isInitial true a)) quiz with
  | Live _ _ =>
      Live (set_flag isInitial false
              (setError (Some failure_message) (setError None (set_flag isInitial true a))))
           Unmounted
  | Crashed => Crashed
  end.

(** ** Sample inputs *)

(** The envelope of the service around a generated [text]. *)
Definition envelope (text : string) : JSValue :=
  JObject [("candidates", JArray [
    JObject [("content", JObject [("parts", JArray [JObject [("text", JString text)]])])]])].

Definition syntax_error : Exn := mkExn "SyntaxError" "Unexpected token".
Definition failed_to_fetch : Exn := mkExn "TypeError" "Failed to fetch".

(** A [JSON.parse] known at one JSON text, whose value it returns. *)
Definition parse_at (text : string) (value : JSValue) (v : JSValue) : Exn + JSValue :=
  match v with
  | JString s => if String.eqb s text then inr value else inl syntax_error
  | _ => inl syntax_error
  end.

Definition quote : string := String (ascii_of_nat 34) EmptyString.

(** The JSON text of a string without characters to escape. *)
Definition quoted (s : string) : string := quote +:+ s +:+ quote.

Fixpoint comma_separated (l : list string) : string :=
  match l with
  | [] => ""
  | [x] => x
  | x :: l' => x +:+ "," +:+ comma_separated l'
  end.

(** The JSON text of a batch of records. *)
Definition record_text (q : QuestionRecord) : string :=
  "{" +:+ quoted "question" +:+ ":" +:+ quoted (question q) +:+ ","
  +:+ quoted "options" +:+ ":[" +:+ comma_separated (quoted <$> options q) +:+ "],"
  +:+ quoted "correctAnswer" +:+ ":" +:+ quoted (correctAnswer q) +:+ "}".

Definition batch_text (qs : list QuestionRecord) : string :=
  "[" +:+ comma_separated (record_text <$> qs) +:+ "]".

(** The service is reached at once and answers with the batch [qs]. *)
Definition serving (qs : list QuestionRecord) : World :=
  mkWorld (fun _ => Resolves (mkResponse true (inr (envelope (batch_text qs)))))
          (parse_at (batch_text qs) (JArray (to_js <$> qs))).

(** No call of [fetch] gets through. *)
Definition offline : World :=
  mkWorld (fun _ => Rejects failed_to_fetch) (parse_at "[]" (JArray [])).

(** The first two calls do not get through, the third is answered with the
    batch [qs]. *)
Definition flaky (qs : list QuestionRecord) : World :=
  mkWorld (fun i => if i <? 2 then Rejects failed_to_fetch
                    else Resolves (mkResponse true (inr (envelope (batch_text qs)))))
          (parse_at (batch_text qs) (JArray (to_js <$> qs))).

(** Every call is answered with status 500 and a body that holds the
    envelope of an empty batch. *)
Definition status_500 : World :=
  mkWorld (fun _ => Resolves (mkResponse false (inr (envelope "[]"))))
          (parse_at "[]" (JArray [])).

(** Every call is answered with status 503 and the error body of the
    service. *)
Definition status_503 : World :=
  mkWorld (fun _ => Resolves (mkResponse false (inr (JObject [
             ("error", JObject [("code", JNumber 503); ("status", JString "UNAVAILABLE")])]))))
          (parse_at "[]" (JArray [])).

(** The service answers at once, and the generated text is [null]. *)
Definition answering_null : World :=
  mkWorld (fun _ => Resolves (mkResponse true (inr (envelope "null"))))
          (parse_at "null" JNull).

(** The service answers at once with a body without candidates. *)
Definition answering_empty : World :=
  mkWorld (fun _ => Resolves (mkResponse true (inr (JObject []))))
          (parse_at "[]" (JArray [])).

Definition q0 : QuestionRecord := mkQuestion "2 + 2 = ?" ["3"; "4"; "5"; "6"] "4".
Definition q1 : QuestionRecord := mkQuestion "3 * 3 = ?" ["6"; "9"; "12"; "27"] "9".

(** A record with three options, none of them the answer. *)
Definition q_bad : QuestionRecord := mkQuestion "1 + 1 = ?" ["1"; "3"; "5"] "2".

(** A page that shows the quiz [[q0]] with its question answered. *)
Definition populated : AppState :=
  mkApp "sums" "Medium" "English" (JArray [to_js q0]) false false None true.

Definition one_answer : Answers := {[ 0 := JString "4" ]}.

(** ** Measures of a trace *)

Definition is_fetch (ev : Event) : bool :=
  match ev with Fetch _ => true | _ => false end.

(** The number of calls of [fetch] in a trace. *)
Definition fetch_count (tr : list Event) : nat := length (List.filter is_fetch tr).

(** The milliseconds waited in a trace. *)
Fixpoint waited (tr : list Event) : nat :=
  match tr with
  | [] => 0
  | Sleep ms :: tr' => ms + waited tr'
  | _ :: tr' => waited tr'
  end.

(** ** A run in two halves, and the events that come in between *)

(** A run of [_fetchQuizQuestions] up to its first [await]: the loading
    flag is set, the error is cleared, the page is rendered. *)
Definition begin_run (isInitial : bool) (p : Page) : Page :=
  match p with
  | Live a quiz => render (setError None (set_flag isInitial true a)) quiz
  | Crashed => Crashed
  end.

(** The same run after its last [await], on the page as it is by then. *)
Definition finish_run (updateData : JSValue → AppState → option AppState)
    (isInitial : bool) (outcome : Exn + JSValue) (p : Page) : Page :=
  match p with
  | Live a quiz => conclude updateData isInitial outcome a quiz
  | Crashed => Crashed
  end.

(** The [updateData] of [handleGenerate]: [setQuizData]. *)
Definition replace_questions (parsedData : JSValue) (a : AppState) : option AppState :=
  Some (setQuizData parsedData a).

(** [handleGenerate] up to the first [await] of its run. *)
Definition begin_generate (p : Page) : Page :=
  match p with
  | Live a quiz =>
      if negb (truthy (JString (trim (topic a)))) then p
      else begin_run true (Live (setQuizData (JArray []) (setHasGenerated true a)) quiz)
  | Crashed => Crashed
  end.

(** [quizData[qIndex].options[oIndex]], the option behind a card's
    [oIndex]-th button; [None] where the quiz shows no such button. *)
Definition option_at (quizData : JSValue) (qIndex oIndex : nat) : option JSValue :=
  match quizData with
  | JArray qs =>
      match qs !! qIndex with
      | Some quizItem =>
          match prop quizItem "options" with
          | JArray os => os !! oIndex
          | _ => None
          end
      | None => None
      end
  | _ => None
  end.

(** A click on the [oIndex]-th option of the question [qIndex], and the
    render of the new answers. *)
Definition click (qIndex oIndex : nat) (p : Page) : Page :=
  match p with
  | Live a (Mounted userAnswers) =>
      match option_at (quizData a) qIndex oIndex with
      | Some option => render a (Mounted (onClick qIndex option userAnswers))
      | None => p
      end
  | _ => p
  end.

(** [disabled={loading || !topic.trim()}] of the Generate button. *)
Definition generate_disabled (a : AppState) : bool :=
  loading a || negb (truthy (JString (trim (topic a)))).

(** ** The colours of an option *)

(** The four branches that complete [className] in a card. *)
Inductive Highlight : Type :=
| Green
| Red
| Gray
| Plain.

Definition highlight_classes (h : Highlight) : string :=
  match h with
  | Green => " bg-green-100 border-green-500 text-green-800"
  | Red => " bg-red-100 border-red-500 text-red-800 ring-2 ring-red-500"
  | Gray => " bg-gray-50 border-gray-300 text-gray-600 opacity-60"
  | Plain => " bg-white border-indigo-200 text-gray-700 hover:bg-indigo-50 hover:border-indigo-400"
  end.

(** The branch taken for an [option] of a card whose recorded answer is
    [selectedAnswer] ([undefined] when there is none). *)
Definition highlight (selectedAnswer option correctAnswer : JSValue) : Highlight :=
  let isAnswered := negb (strict_eq selectedAnswer JUndefined) in
  let isSelected := strict_eq selectedAnswer option in
  let isCorrect := strict_eq option correctAnswer in
  if isAnswered then
    if isCorrect then Green
    else if isSelected && negb isCorrect then Red
    else Gray
  else Plain.

Definition option_className (selectedAnswer option correctAnswer : JSValue) : string :=
  "px-4 py-3 rounded-lg border cursor-pointer transition duration-150 text-sm font-medium"
  +:+ highlight_classes (highlight selectedAnswer option correctAnswer).

(** ** [StreamingText] *)

Module StreamingText.

(** The variable [i] of the effect, the state [displayed], and whether
    [clearInterval] has been called. *)
Record Stream : Type := mkStream {
  i : nat;
  displayed : string;
  cleared : bool
}.

(** [text?.[j] ?? ""], for a [text] that is a string or [undefined]. *)
Definition piece (text : option string) (j : nat) : string :=
  match text with
  | Some s =>
      match String.get j s with
      | Some c => String c EmptyString
      | None => ""
      end
  | None => ""
  end.

(** [text?.length || 0] *)
Definition text_length (text : option string) : nat :=
  match text with
  | Some s => String.length s
  | None => 0
  end.

(** The effect: [let i = 0] and the interval; [displayed] is not touched. *)
Definition start (st : Stream) : Stream := mkStream 0 (displayed st) false.

(** One call of the interval's callback, none once the interval is
    cleared.  The updater [prev => prev + (text?.[i] ?? "")] reads [i] when
    React runs it: [lag] is the number of [i++] that have happened by then
    (0 when it runs inside [setDisplayed], 1 when it runs at the render that
    follows the callback). *)
Definition tick (text : option string) (lag : nat) (st : Stream) : Stream :=
  if cleared st then st
  else mkStream (S (i st)) (displayed st +:+ piece text (i st + lag))
                (text_length text <=? S (i st)).

(** The callbacks of the interval, one per element of [lags]. *)
Fixpoint ticks (text : option string) (lags : list nat) (st : Stream) : Stream :=
  match lags with
  | [] => st
  | lag :: lags' => ticks text lags' (tick text lag st)
  end.

End StreamingText.

(** ** More sample inputs *)

(** The first call is answered with status 500, no later call gets
    through. *)
Definition refused_then_down : World :=
  mkWorld (fun i => if i <? 1 then Resolves (mkResponse false (inr (envelope "[]")))
                    else Rejects failed_to_fetch)
          (parse_at "[]" (JArray [])).

(** The service answers at once, and the generated text is an empty
    object. *)
Definition answering_object : World :=
  mkWorld (fun _ => Resolves (mkResponse true (inr (envelope "{}"))))
          (parse_at "{}" (JObject [])).

(** The service answers at once with a body that is [null]. *)
Definition answering_null_body : World :=
  mkWorld (fun _ => Resolves (mkResponse true (inr JNull))) (parse_at "[]" (JArray [])).

(** The service answers at once with a body that is no JSON. *)
Definition answering_html : World :=
  mkWorld (fun _ => Resolves (mkResponse true (inl syntax_error))) (parse_at "[]" (JArray [])).

(** The service answers at once with a prompt feedback and no candidate. *)
Definition answering_blocked : World :=
  mkWorld (fun _ => Resolves (mkResponse true (inr (JObject [
             ("promptFeedback", JObject [("blockReason", JString "SAFETY")])]))))
          (parse_at "[]" (JArray [])).

(** The answers all belong to one of the first [n] questions. *)
Definition in_range (n : nat) (userAnswers : Answers) : Prop :=
  ∀ i, is_Some (userAnswers !! i) → i < n.

(** [onChange] of the topic input: [setTopic(e.currentTarget.value)]. *)
Definition setTopic (t : string) (a : AppState) : AppState :=
  mkApp t (difficultyLevel a) (quizLanguage a) (quizData a)
        (loading a) (loadingMore a) (error a) (hasGenerated a).

Definition change_topic (t : string) (p : Page) : Page :=
  match p with
  | Live a quiz => render (setTopic t a) quiz
  | Crashed => Crashed
  end.

(** * Properties *)

(** ** The run of [_fetchQuizQuestions] *)

Lemma run_unfold w count updateData isInitial a quiz :
  _fetchQuizQuestions w count updateData isInitial a quiz =
  (match render (setError None (set_flag isInitial true a)) quiz with
   | Live a2 quiz2 =>
       conclude updateData isInitial (fst (request w (payload a count))) a2 quiz2
   | Crashed => Crashed
   end,
   snd (request w (payload a count)) ++ logged (fst (request w (payload a count)))).
Proof.
  unfold _fetchQuizQuestions. destruct (request w (payload a count)); reflexivity.
Qed.

Lemma render_live a quiz a' quiz' :
  render a quiz = Live a' quiz' →
  a' = a ∧ quiz' = if shows_quiz a then Mounted (answers quiz) else Unmounted.
Proof.
  unfold render. destruct (shows_quiz a).
  - destruct (QuizDisplay _ _); [|discriminate]. intros [= <- <-]. auto.
  - intros [= <- <-]. auto.
Qed.

(** [render] leaves a consistent page, and the first page is one. *)
Lemma render_consistent a quiz a' quiz' :
  render a quiz = Live a' quiz' → consistent a' quiz'.
Proof.
  intros H. apply render_live in H as [-> ->].
  destruct (shows_quiz a) eqn:E; cbn; auto.
Qed.

Lemma initial_consistent : render initial Unmounted = Live initial Unmounted.
Proof. reflexivity. Qed.

Lemma shows_quiz_error isInitial msg a :
  msg ≠ "" → shows_quiz (set_flag isInitial false (setError (Some msg) a)) = false.
Proof.
  intros Hmsg. unfold shows_quiz.
  assert (String.eqb msg "" = false) as E by (apply String.eqb_neq; exact Hmsg).
  destruct isInitial; cbn; rewrite E; cbn; apply andb_false_r.
Qed.

Lemma conclude_failure updateData isInitial e a quiz :
  conclude updateData isInitial (inl e) a quiz =
  Live (set_flag isInitial false (setError (Some failure_message) a)) Unmounted.
Proof.
  cbn [conclude]. unfold render. rewrite shows_quiz_error; [reflexivity | discriminate].
Qed.

Lemma run_failure w count updateData isInitial a quiz e :
  fst (request w (payload a count)) = inl e →
  _fetchQuizQuestions w count updateData isInitial a quiz =
  (failed_page isInitial a quiz, snd (request w (payload a count)) ++ [ConsoleError e]).
Proof.
  intros He. rewrite run_unfold, He. cbn [logged]. f_equal.
  unfold failed_page.
  destruct (render _ quiz) as [a2 quiz2|] eqn:Hr; [|reflexivity].
  apply render_live in Hr as [-> _]. apply conclude_failure.
Qed.

Lemma retry_loop_two_rejected w body e0 e1 :
  fetch w 0 = Rejects e0 → fetch w 1 = Rejects e1 →
  retry_loop w body 3 0 None =
  (match fetch w 2 with
   | Rejects e2 => inl e2
   | Resolves r => inr (Some r)
   end, three_attempts body).
Proof.
  intros H0 H1. cbn [retry_loop]. rewrite H0, H1. cbn.
  destruct (fetch w 2) as [e2|r]; [reflexivity|].
  destruct (ok r); reflexivity.
Qed.

Lemma retry_loop_first_ok w body r :
  fetch w 0 = Resolves r → ok r = true →
  retry_loop w body 3 0 None = (inr (Some r), [Fetch body]).
Proof. intros H0 Hok. cbn [retry_loop]. rewrite H0, Hok. reflexivity. Qed.

Lemma retry_loop_all_refused w body r0 r1 r2 :
  fetch w 0 = Resolves r0 → ok r0 = false →
  fetch w 1 = Resolves r1 → ok r1 = false →
  fetch w 2 = Resolves r2 → ok r2 = false →
  retry_loop w body 3 0 None = (inr (Some r2), [Fetch body; Fetch body; Fetch body]).
Proof.
  intros H0 K0 H1 K1 H2 K2. cbn [retry_loop].
  rewrite H0, K0, H1, K1, H2, K2. reflexivity.
Qed.

(** C1. When the transport throws on the first two attempts, the run makes
    exactly three calls of [fetch], waits 1 s after the first and 2 s after
    the second and not before the first; if the third call throws too, its
    exception is the one caught, logged and shown as the failure; if the
    third call is answered with a readable batch, the run hands that batch
    over after these three calls. *)
Theorem fetch_retry_budget (w : World) (count : nat)
    (updateData : JSValue → AppState → option AppState) (isInitial : bool)
    (a : AppState) (quiz : Screen) (e0 e1 : Exn) :
  fetch w 0 = Rejects e0 →
  fetch w 1 = Rejects e1 →
  snd (request w (payload a count)) = three_attempts (payload a count)
  ∧ (∀ e2, fetch w 2 = Rejects e2 →
       fst (request w (payload a count)) = inl e2
       ∧ _fetchQuizQuestions w count updateData isInitial a quiz =
         (failed_page isInitial a quiz,
          three_attempts (payload a count) ++ [ConsoleError e2]))
  ∧ (∀ r parsedData, fetch w 2 = Resolves r →
       read_response w (Some r) = inr parsedData →
       fst (request w (payload a count)) = inr parsedData
       ∧ snd (_fetchQuizQuestions w count updateData isInitial a quiz) =
         three_attempts (payload a count)).
Proof.
  intros H0 H1.
  assert (request w (payload a count) =
          (match fetch w 2 with
           | Rejects e2 => inl e2
           | Resolves r => read_response w (Some r)
           end, three_attempts (payload a count))) as Hreq.
  { unfold request. rewrite (retry_loop_two_rejected _ _ _ _ H0 H1).
    destruct (fetch w 2); reflexivity. }
  split; [rewrite Hreq; reflexivity|]. split.
  - intros e2 H2.
    assert (fst (request w (payload a count)) = inl e2) as He
      by (rewrite Hreq, H2; reflexivity).
    split; [exact He|].
    rewrite (run_failure _ _ _ _ _ _ _ He), Hreq. reflexivity.
  - intros r parsedData H2 Hread.
    assert (fst (request w (payload a count)) = inr parsedData) as He
      by (rewrite Hreq, H2; exact Hread).
    split; [exact He|].
    rewrite run_unfold, He, Hreq. cbn [logged snd]. apply app_nil_r.
Qed.

Lemma fetch_retry_budget_witness :
  _fetchQuizQuestions offline 10 append_questions false populated (Mounted one_answer) =
    (failed_page false populated (Mounted one_answer),
     three_attempts (payload populated 10) ++ [ConsoleError failed_to_fetch])
  ∧ fst (request (flaky [q0]) (payload populated 10)) = inr (JArray [to_js q0]).
Proof.
  split.
  - apply (fetch_retry_budget offline 10 append_questions false populated
             (Mounted one_answer) failed_to_fetch failed_to_fetch);
      reflexivity.
  - apply (fetch_retry_budget (flaky [q0]) 10 append_questions false populated
             (Mounted one_answer) failed_to_fetch failed_to_fetch eq_refl eq_refl)
      with (r := mkResponse true (inr (envelope (batch_text [q0]))));
      reflexivity.
Defined.

(** C4.  At the failing input [status_500] (every call answered with a
    non-success status): the three calls follow one another without a wait,
    and the body of the third response is read and parsed; the run ends as a
    success with the batch of that body, no error is set.  At [status_503]
    the body of the third response is read as well, and the failure of the
    run is the one of a body without text. *)
Theorem status_500_body_is_parsed :
  request status_500 (payload populated 30) =
    (inr (JArray []),
     [Fetch (payload populated 30); Fetch (payload populated 30); Fetch (payload populated 30)])
  ∧ handleGenerate status_500 populated (Mounted one_answer) =
    (Live (mkApp "sums" "Medium" "English" (JArray []) false false None true) (Mounted ∅),
     [Fetch (payload populated 30); Fetch (payload populated 30); Fetch (payload populated 30)])
  ∧ request status_503 (payload populated 30) =
    (inl malformed,
     [Fetch (payload populated 30); Fetch (payload populated 30); Fetch (payload populated 30)]).
Proof. repeat split; reflexivity. Qed.

(** The text of an envelope is read back by [jsonText_of]. *)
Lemma jsonText_of_envelope text : jsonText_of (envelope text) = inr (JString text).
Proof. reflexivity. Qed.

(** C5, as stated, fails at [answering_null]: the first response is
    successful and its text, [null], is valid JSON that is no array; the
    run does not fail, it hands [null] over as the new [quizData]. *)
Lemma null_text_is_accepted :
  fetch answering_null 0 = Resolves (mkResponse true (inr (envelope "null")))
  ∧ JSON_parse answering_null (JString "null") = inr JNull
  ∧ request answering_null (payload populated 30) = (inr JNull, [Fetch (payload populated 30)])
  ∧ handleGenerate answering_null populated (Mounted one_answer) =
    (Live (mkApp "sums" "Medium" "English" JNull false false None true) (Mounted ∅),
     [Fetch (payload populated 30)]).
Proof. repeat split; reflexivity. Qed.

(** C5, amended.  When the first call is answered with a successful
    response, no other call is made, whatever the response holds.  If its
    body decodes to a value other than [null] whose text field is absent or
    empty, the run fails with the error of message [API returned an empty or
    malformed response structure.]; if [JSON.parse] throws on the text, the
    run fails with that exception; if [JSON.parse] returns a value, array or
    not, the run hands it over.  Each after exactly one call. *)
Theorem ok_response_is_final (w : World) (body : JSValue) (r : Response) :
  fetch w 0 = Resolves r →
  ok r = true →
  snd (request w body) = [Fetch body]
  ∧ fst (request w body) = read_response w (Some r)
  ∧ (∀ result jsonText, json r = inr result → jsonText_of result = inr jsonText →
       truthy jsonText = false →
       request w body = (inl malformed, [Fetch body]))
  ∧ (∀ result jsonText, json r = inr result → jsonText_of result = inr jsonText →
       truthy jsonText = true →
       request w body = (JSON_parse w jsonText, [Fetch body])).
Proof.
  intros H0 Hok.
  assert (request w body = (read_response w (Some r), [Fetch body])) as Hreq.
  { unfold request. rewrite (retry_loop_first_ok _ _ _ H0 Hok). reflexivity. }
  rewrite Hreq. cbn [fst snd]. repeat split.
  - intros result jsonText Hj Ht Hf. cbn [read_response]. rewrite Hj, Ht, Hf. reflexivity.
  - intros result jsonText Hj Ht Hf. cbn [read_response]. rewrite Hj, Ht, Hf. reflexivity.
Qed.

Lemma ok_response_is_final_witness :
  request (serving [q0]) (payload populated 30) =
    (inr (JArray [to_js q0]), [Fetch (payload populated 30)])
  ∧ request answering_empty (payload populated 30) =
    (inl malformed, [Fetch (payload populated 30)]).
Proof.
  split.
  - apply (ok_response_is_final (serving [q0]) (payload populated 30)
             (mkResponse true (inr (envelope (batch_text [q0])))) eq_refl eq_refl)
      with (result := envelope (batch_text [q0])) (jsonText := JString (batch_text [q0]));
      reflexivity.
  - apply (ok_response_is_final answering_empty (payload populated 30)
             (mkResponse true (inr (JObject []))) eq_refl eq_refl)
      with (result := JObject []) (jsonText := JUndefined);
      reflexivity.
Defined.

(** ** [QuizDisplay] over records *)

Lemma strict_eq_undefined v : strict_eq v JUndefined = true ↔ v = JUndefined.
Proof. destruct v; cbn; split; congruence. Qed.

Lemma is_correct_spec qs userAnswers i :
  is_correct qs userAnswers i = true ↔
  ∃ q, qs !! i = Some q ∧ userAnswers !! i = Some (JString (correctAnswer q)).
Proof.
  unfold is_correct. split.
  - destruct (qs !! i) as [q|]; [|discriminate].
    destruct (userAnswers !! i) as [[| | | |s| |]|]; try discriminate.
    intros H%String.eqb_eq. subst s. eauto.
  - intros (q & -> & ->). apply String.eqb_refl.
Qed.

Lemma is_correct_middle pre q qs userAnswers :
  is_correct (pre ++ q :: qs) userAnswers (length pre) =
  strict_eq (answer_at userAnswers (length pre)) (JString (correctAnswer q)).
Proof.
  unfold is_correct, answer_at. rewrite list_lookup_middle by reflexivity.
  destruct (userAnswers !! length pre) as [[| | | |s| |]|]; reflexivity.
Qed.

(** The loop of [calculateScore] from any position on: the running score
    grows by the number of correct answers among the remaining indices. *)
Lemma forEach_score_records userAnswers qs : ∀ pre score,
  forEach_score userAnswers (to_js <$> qs) (length pre) score =
  Some (score + length (List.filter (is_correct (pre ++ qs) userAnswers)
                          (seq (length pre) (length qs)))).
Proof.
  induction qs as [|q qs IH]; intros pre score.
  - cbn. f_equal. lia.
  - cbn [fmap list_fmap forEach_score length seq List.filter].
    change (dot (to_js q) "correctAnswer") with (@inr Exn _ (JString (correctAnswer q))).
    cbn match.
    specialize (IH (pre ++ [q])). rewrite length_app in IH. cbn [length] in IH.
    replace (length pre + 1) with (S (length pre)) in IH by lia.
    rewrite <- app_assoc in IH. cbn [app] in IH.
    fold (@fmap list _ _ _ to_js qs). rewrite IH, is_correct_middle.
    destruct (strict_eq _ _); cbn [length]; f_equal; lia.
Qed.

Lemma calculateScore_records qs userAnswers :
  calculateScore (JArray (to_js <$> qs)) userAnswers = Some (correctCount qs userAnswers).
Proof.
  unfold calculateScore, correctCount.
  exact (forEach_score_records userAnswers qs [] 0).
Qed.

Lemma card_renders_record userAnswers i q : card_renders userAnswers i (to_js q) = true.
Proof.
  unfold card_renders. cbn.
  assert (forallb valid_child (JString <$> options q) = true) as ->.
  { induction (options q); [reflexivity | assumption]. }
  destruct (isAnswered userAnswers i); reflexivity.
Qed.

Lemma cards_render (f : nat → JSValue → bool) qs :
  (∀ i q, f i (to_js q) = true) → forallb id (imap f (to_js <$> qs)) = true.
Proof.
  revert f. induction qs as [|q qs IH]; intros f Hf; [reflexivity|].
  cbn. rewrite Hf. cbn. apply IH. intros i q'. apply Hf.
Qed.

(** Over an array of records [QuizDisplay] never throws: it shows the
    placeholder for the empty array, the quiz with its score otherwise. *)
Lemma QuizDisplay_records qs userAnswers :
  QuizDisplay (JArray (to_js <$> qs)) userAnswers =
  Some (match qs with
        | [] => NoQuestions
        | _ :: _ => QuizView (correctCount qs userAnswers) (length qs)
        end).
Proof.
  unfold QuizDisplay. rewrite calculateScore_records.
  destruct qs as [|q qs]; [reflexivity|].
  rewrite (cards_render _ (q :: qs) (card_renders_record userAnswers)).
  rewrite length_fmap. reflexivity.
Qed.

Lemma render_records a quiz qs :
  quizData a = JArray (to_js <$> qs) →
  render a quiz = Live a (if shows_quiz a then Mounted (answers quiz) else Unmounted).
Proof.
  intros Hq. unfold render. rewrite Hq, QuizDisplay_records.
  destruct (shows_quiz a); reflexivity.
Qed.

(** ** The two callers over records *)

Lemma topic_not_blank a :
  trim (topic a) ≠ "" → negb (truthy (JString (trim (topic a)))) = false.
Proof.
  intros H. cbn. apply String.eqb_neq in H. rewrite H. reflexivity.
Qed.

(** A generation whose request succeeds with the records [rs]. *)
Lemma generate_success w a quiz rs :
  trim (topic a) ≠ "" →
  fst (request w (payload a 30)) = inr (JArray (to_js <$> rs)) →
  handleGenerate w a quiz =
  (Live (mkApp (topic a) (difficultyLevel a) (quizLanguage a) (JArray (to_js <$> rs))
               false (loadingMore a) None true) (Mounted ∅),
   snd (request w (payload a 30))).
Proof.
  intros Ht Hreq. unfold handleGenerate. rewrite (topic_not_blank _ Ht).
  rewrite run_unfold.
  change (payload (setQuizData (JArray []) (setHasGenerated true a)) 30) with (payload a 30).
  rewrite Hreq. cbn [logged]. rewrite app_nil_r. f_equal.
  cbn -[QuizDisplay]. rewrite QuizDisplay_records. reflexivity.
Qed.

(** A generation whose request fails. *)
Lemma generate_failure w a quiz e :
  trim (topic a) ≠ "" →
  fst (request w (payload a 30)) = inl e →
  handleGenerate w a quiz =
  (Live (mkApp (topic a) (difficultyLevel a) (quizLanguage a) (JArray [])
               false (loadingMore a) (Some failure_message) true) Unmounted,
   snd (request w (payload a 30)) ++ [ConsoleError e]).
Proof.
  intros Ht Hreq. unfold handleGenerate. rewrite (topic_not_blank _ Ht).
  change (payload a 30)
    with (payload (setQuizData (JArray []) (setHasGenerated true a)) 30) in Hreq.
  rewrite (run_failure _ _ _ _ _ _ _ Hreq). reflexivity.
Qed.

Lemma shows_quiz_loading_more a :
  shows_quiz a = true → shows_quiz (setError None (setLoadingMore true a)) = true.
Proof.
  unfold shows_quiz. cbn. intros H.
  apply andb_true_iff in H as [H _]. rewrite H. reflexivity.
Qed.

(** A load of more questions over the records [qs], whose request succeeds
    with the records [rs]. *)
Lemma load_more_success w a quiz qs rs :
  quizData a = JArray (to_js <$> qs) →
  consistent a quiz →
  fst (request w (payload a 10)) = inr (JArray (to_js <$> rs)) →
  ∃ quiz',
    handleLoadMore w a quiz =
    (Live (mkApp (topic a) (difficultyLevel a) (quizLanguage a)
                 (JArray (to_js <$> (qs ++ rs)))
                 (loading a) false None (hasGenerated a)) quiz',
     snd (request w (payload a 10)))
    ∧ answers quiz' = answers quiz
    ∧ (∀ userAnswers, quiz = Mounted userAnswers → quiz' = Mounted userAnswers).
Proof.
  intros Hq Hc Hreq. unfold handleLoadMore. rewrite run_unfold, Hreq.
  cbn [logged]. rewrite app_nil_r.
  rewrite (render_records _ quiz qs) by (cbn; exact Hq).
  cbn [conclude]. unfold append_questions.
  cbn [set_flag setError setLoadingMore quizData]. rewrite Hq. cbn [spread].
  rewrite <- fmap_app.
  set (a' := setLoadingMore false _).
  rewrite (render_records a' _ (qs ++ rs)) by reflexivity.
  destruct quiz as [|userAnswers]; cbn [consistent answers] in *.
  - eexists. split; [reflexivity|]. split.
    + destruct (shows_quiz _), (shows_quiz a'); reflexivity.
    + discriminate.
  - rewrite (shows_quiz_loading_more _ Hc).
    assert (shows_quiz a' = true) as ->.
    { unfold shows_quiz in *. cbn. apply andb_true_iff in Hc as [Hc _].
      rewrite Hc. reflexivity. }
    eexists. split; [reflexivity|]. split; [reflexivity|].
    intros ? [= ->]. reflexivity.
Qed.

(** A load of more questions whose request fails. *)
Lemma load_more_failure w a quiz qs e :
  quizData a = JArray (to_js <$> qs) →
  fst (request w (payload a 10)) = inl e →
  handleLoadMore w a quiz =
  (Live (mkApp (topic a) (difficultyLevel a) (quizLanguage a) (quizData a)
               (loading a) false (Some failure_message) (hasGenerated a)) Unmounted,
   snd (request w (payload a 10)) ++ [ConsoleError e]).
Proof.
  intros Hq Hreq. unfold handleLoadMore.
  rewrite (run_failure _ _ _ _ _ _ _ Hreq). f_equal.
  unfold failed_page. rewrite (render_records _ quiz qs) by (cbn; exact Hq).
  reflexivity.
Qed.

(** ** A failed request *)

(** C2, as stated, fails at [offline] on the page [populated] (one
    question, answered): the request fails on both paths; the generation
    leaves an empty list of questions where there was one, and both paths
    leave the page without [QuizDisplay], whose answers are gone. *)
Lemma failed_request_changes_page :
  fst (request offline (payload populated 30)) = inl failed_to_fetch
  ∧ fst (request offline (payload populated 10)) = inl failed_to_fetch
  ∧ quizData populated = JArray [to_js q0]
  ∧ render populated (Mounted one_answer) = Live populated (Mounted one_answer)
  ∧ fst (handleGenerate offline populated (Mounted one_answer)) =
    Live (mkApp "sums" "Medium" "English" (JArray []) false false
                (Some failure_message) true) Unmounted
  ∧ fst (handleLoadMore offline populated (Mounted one_answer)) =
    Live (mkApp "sums" "Medium" "English" (JArray [to_js q0]) false false
                (Some failure_message) true) Unmounted.
Proof. repeat split; reflexivity. Qed.

(** C2, amended.  On a page whose questions are records, a failed request
    of a load of more questions leaves the list of questions as it was; a
    failed request of a generation leaves the list empty, as it was reset
    before the request; on both paths the error message is set and
    [QuizDisplay] is no longer rendered, so that no recorded answer is
    kept. *)
Theorem failed_request_page (w : World) (a : AppState) (quiz : Screen)
    (qs : list QuestionRecord) :
  quizData a = JArray (to_js <$> qs) →
  (∀ e, fst (request w (payload a 10)) = inl e →
     ∃ a', fst (handleLoadMore w a quiz) = Live a' Unmounted
           ∧ quizData a' = quizData a
           ∧ error a' = Some failure_message)
  ∧ (∀ e, trim (topic a) ≠ "" → fst (request w (payload a 30)) = inl e →
     ∃ a', fst (handleGenerate w a quiz) = Live a' Unmounted
           ∧ quizData a' = JArray []
           ∧ error a' = Some failure_message).
Proof.
  intros Hq. split.
  - intros e He. rewrite (load_more_failure _ _ _ _ _ Hq He).
    eexists. split; [reflexivity|]. split; reflexivity.
  - intros e Ht He. rewrite (generate_failure _ _ _ _ Ht He).
    eexists. split; [reflexivity|]. split; reflexivity.
Qed.

Lemma failed_request_page_witness :
  (∃ a', fst (handleLoadMore offline populated (Mounted one_answer)) = Live a' Unmounted
         ∧ quizData a' = quizData populated
         ∧ error a' = Some failure_message)
  ∧ (∃ a', fst (handleGenerate offline populated (Mounted one_answer)) = Live a' Unmounted
           ∧ quizData a' = JArray []
           ∧ error a' = Some failure_message).
Proof.
  split.
  - apply (proj1 (failed_request_page offline populated (Mounted one_answer) [q0] eq_refl)
             failed_to_fetch).
    reflexivity.
  - apply (proj2 (failed_request_page offline populated (Mounted one_answer) [q0] eq_refl)
             failed_to_fetch).
    + vm_compute. discriminate.
    + reflexivity.
Defined.

(** ** A successful request *)

(** C3, as stated, fails at [serving [q0; q_bad]]: the record [q_bad] has
    three options and an answer that is none of them, and it is in the list
    of questions after the generation. *)
Lemma invalid_record_is_kept :
  spec_valid_record q_bad = false
  ∧ length (options q_bad) = 3
  ∧ (correctAnswer q_bad ∉ options q_bad)
  ∧ handleGenerate (serving [q0; q_bad]) populated (Mounted one_answer) =
    (Live (mkApp "sums" "Medium" "English" (JArray [to_js q0; to_js q_bad])
                 false false None true) (Mounted ∅),
     [Fetch (payload populated 30)]).
Proof.
  split; [reflexivity|]. split; [reflexivity|]. split; [|reflexivity].
  intros H. apply (bool_decide_pack _) in H. vm_compute in H. exact H.
Qed.

(** C3, amended.  The batch of a successful request is taken as it is: every
    record of it, whether or not it passes the three checks, is in the list
    of questions afterwards, at its place; a generation leaves exactly the
    batch, a load of more questions the old list followed by the batch. *)
Theorem fetched_batch_is_kept_whole (w : World) (a : AppState) (quiz : Screen)
    (qs rs : list QuestionRecord) :
  quizData a = JArray (to_js <$> qs) →
  consistent a quiz →
  (trim (topic a) ≠ "" → fst (request w (payload a 30)) = inr (JArray (to_js <$> rs)) →
     ∃ a' quiz', fst (handleGenerate w a quiz) = Live a' quiz'
       ∧ quizData a' = JArray (to_js <$> rs)
       ∧ (∀ i q, rs !! i = Some q → opt_index (quizData a') i = to_js q))
  ∧ (fst (request w (payload a 10)) = inr (JArray (to_js <$> rs)) →
     ∃ a' quiz', fst (handleLoadMore w a quiz) = Live a' quiz'
       ∧ quizData a' = JArray (to_js <$> (qs ++ rs))
       ∧ (∀ i q, rs !! i = Some q → opt_index (quizData a') (length qs + i) = to_js q)).
Proof.
  intros Hq Hc.
  assert (∀ (l : list QuestionRecord) i q, l !! i = Some q →
            opt_index (JArray (to_js <$> l)) i = to_js q) as Hnth.
  { intros l i q Hl. cbn. apply nth_lookup_Some. rewrite list_lookup_fmap, Hl. reflexivity. }
  split.
  - intros Ht Hreq. rewrite (generate_success _ _ _ _ Ht Hreq).
    eexists _, _. split; [reflexivity|]. split; [reflexivity|].
    intros i q Hi. cbn [quizData]. apply Hnth, Hi.
  - intros Hreq. destruct (load_more_success _ _ _ _ _ Hq Hc Hreq) as (quiz' & -> & _).
    eexists _, _. split; [reflexivity|]. split; [reflexivity|].
    intros i q Hi. cbn [quizData]. apply Hnth.
    rewrite lookup_app_r by lia. replace (length qs + i - length qs) with i by lia.
    exact Hi.
Qed.

Lemma fetched_batch_is_kept_whole_witness :
  (∃ a' quiz', fst (handleGenerate (serving [q0; q_bad]) populated (Mounted one_answer))
               = Live a' quiz'
     ∧ quizData a' = JArray (to_js <$> [q0; q_bad])
     ∧ (∀ i q, [q0; q_bad] !! i = Some q → opt_index (quizData a') i = to_js q))
  ∧ (∃ a' quiz', fst (handleLoadMore (serving [q1; q_bad]) populated (Mounted one_answer))
                 = Live a' quiz'
     ∧ quizData a' = JArray (to_js <$> ([q0] ++ [q1; q_bad]))
     ∧ (∀ i q, [q1; q_bad] !! i = Some q
               → opt_index (quizData a') (length [q0] + i) = to_js q)).
Proof.
  split.
  - apply (proj1 (fetched_batch_is_kept_whole (serving [q0; q_bad]) populated
                    (Mounted one_answer) [q0] [q0; q_bad] eq_refl eq_refl)).
    + vm_compute. discriminate.
    + reflexivity.
  - apply (proj2 (fetched_batch_is_kept_whole (serving [q1; q_bad]) populated
                    (Mounted one_answer) [q0] [q1; q_bad] eq_refl eq_refl)).
    reflexivity.
Defined.

(** C6.  A load of more questions whose request succeeds with the records
    [rs] leaves the old list of questions followed by [rs]: every question
    keeps its index, and the answers recorded on the page are the ones
    recorded before. *)
Theorem load_more_appends (w : World) (a : AppState) (quiz : Screen)
    (qs rs : list QuestionRecord) :
  quizData a = JArray (to_js <$> qs) →
  consistent a quiz →
  fst (request w (payload a 10)) = inr (JArray (to_js <$> rs)) →
  ∃ a' quiz',
    fst (handleLoadMore w a quiz) = Live a' quiz'
    ∧ quizData a' = JArray (to_js <$> (qs ++ rs))
    ∧ (∀ i q, qs !! i = Some q → (qs ++ rs) !! i = Some q)
    ∧ answers quiz' = answers quiz
    ∧ (∀ userAnswers, quiz = Mounted userAnswers → quiz' = Mounted userAnswers).
Proof.
  intros Hq Hc Hreq.
  destruct (load_more_success _ _ _ _ _ Hq Hc Hreq) as (quiz' & -> & Hans & Hm).
  eexists _, quiz'. split; [reflexivity|]. split; [reflexivity|]. split.
  - intros i q Hi. apply lookup_app_l_Some, Hi.
  - split; assumption.
Qed.

Lemma load_more_appends_witness :
  ∃ a' quiz',
    fst (handleLoadMore (serving [q1]) populated (Mounted one_answer)) = Live a' quiz'
    ∧ quizData a' = JArray (to_js <$> ([q0] ++ [q1]))
    ∧ (∀ i q, [q0] !! i = Some q → ([q0] ++ [q1]) !! i = Some q)
    ∧ answers quiz' = answers (Mounted one_answer)
    ∧ (∀ userAnswers, Mounted one_answer = Mounted userAnswers → quiz' = Mounted userAnswers).
Proof.
  apply (load_more_appends (serving [q1]) populated (Mounted one_answer) [q0] [q1]);
    reflexivity.
Defined.

(** C7.  A generation whose request succeeds with the records [rs] leaves
    [rs], in order, as the list of questions, whatever the answers recorded
    before: [QuizDisplay] is rendered anew, with no answer. *)
Theorem generate_replaces_and_clears (w : World) (a : AppState) (quiz : Screen)
    (rs : list QuestionRecord) :
  trim (topic a) ≠ "" →
  fst (request w (payload a 30)) = inr (JArray (to_js <$> rs)) →
  ∃ a',
    fst (handleGenerate w a quiz) = Live a' (Mounted ∅)
    ∧ quizData a' = JArray (to_js <$> rs)
    ∧ error a' = None.
Proof.
  intros Ht Hreq. rewrite (generate_success _ _ _ _ Ht Hreq).
  eexists. split; [reflexivity|]. split; reflexivity.
Qed.

Lemma generate_replaces_and_clears_witness :
  ∃ a',
    fst (handleGenerate (serving [q1]) populated (Mounted one_answer)) = Live a' (Mounted ∅)
    ∧ quizData a' = JArray (to_js <$> [q1])
    ∧ error a' = None.
Proof.
  apply (generate_replaces_and_clears (serving [q1]) populated (Mounted one_answer) [q1]).
  - vm_compute. discriminate.
  - reflexivity.
Defined.

(** ** Answers and score *)

(** C8.  Once an answer [X] is recorded for the question [i], a click on
    any option [Y] of that question changes nothing: the answers are the
    same, and the answer of [i] is still [X]. *)
Theorem answered_question_ignores_clicks (userAnswers : Answers) (i : nat) (X Y : JSValue) :
  userAnswers !! i = Some X →
  X ≠ JUndefined →
  onClick i Y userAnswers = userAnswers
  ∧ onClick i Y userAnswers !! i = Some X.
Proof.
  intros Hi HX.
  assert (onClick i Y userAnswers = userAnswers) as ->; [|split; [reflexivity | exact Hi]].
  unfold onClick, isAnswered, answer_at. rewrite Hi. cbn.
  destruct (strict_eq X JUndefined) eqn:E; [|reflexivity].
  apply strict_eq_undefined in E. contradiction.
Qed.

Lemma answered_question_ignores_clicks_witness :
  onClick 0 (JString "5") one_answer = one_answer
  ∧ onClick 0 (JString "5") one_answer !! 0 = Some (JString "4").
Proof.
  apply (answered_question_ignores_clicks one_answer 0 (JString "4") (JString "5")).
  - reflexivity.
  - discriminate.
Defined.

(** C9.  The score of a quiz is computed from the questions and the answers
    alone: [calculateScore] returns the number of indices whose answer
    equals the correct answer of the question, and the header of the quiz
    shows it with the number of questions. *)
Theorem score_counts_correct_answers (qs : list QuestionRecord) (userAnswers : Answers) :
  calculateScore (JArray (to_js <$> qs)) userAnswers = Some (correctCount qs userAnswers)
  ∧ QuizDisplay (JArray (to_js <$> qs)) userAnswers =
    Some (match qs with
          | [] => NoQuestions
          | _ :: _ => QuizView (correctCount qs userAnswers) (length qs)
          end)
  ∧ (∀ i, i ∈ List.filter (is_correct qs userAnswers) (seq 0 (length qs)) ↔
          ∃ q, qs !! i = Some q ∧ userAnswers !! i = Some (JString (correctAnswer q))).
Proof.
  split; [apply calculateScore_records|]. split; [apply QuizDisplay_records|].
  intros i. rewrite list_elem_of_In, filter_In, is_correct_spec. split.
  - intros [_ H]. exact H.
  - intros (q & Hq & Ha). split; [|eauto].
    apply in_seq. apply lookup_lt_Some in Hq. lia.
Qed.

(** ** A blank topic *)

(** C10.  With a topic that is empty once trimmed, [handleGenerate] returns
    at once: no call of [fetch], no event at all, and the page (questions,
    answers, error, loading flags) is the one it was. *)
Theorem blank_topic_generate_is_noop (w : World) (a : AppState) (quiz : Screen) :
  trim (topic a) = "" →
  handleGenerate w a quiz = (Live a quiz, []).
Proof.
  intros Ht. unfold handleGenerate. rewrite Ht. reflexivity.
Qed.

Lemma blank_topic_generate_is_noop_witness :
  handleGenerate (serving [q1])
    (mkApp "   " "Medium" "English" (JArray [to_js q0]) false false None true)
    (Mounted one_answer)
  = (Live (mkApp "   " "Medium" "English" (JArray [to_js q0]) false false None true)
          (Mounted one_answer), []).
Proof.
  apply (blank_topic_generate_is_noop (serving [q1])
           (mkApp "   " "Medium" "English" (JArray [to_js q0]) false false None true)
           (Mounted one_answer)).
  reflexivity.
Defined.

(** * Further properties *)

(** ** The retry loop, for every behaviour of the transport *)

(** The outcome and the trace of the loop, by cases on the three calls. *)
Lemma retry_loop_cases w body :
  retry_loop w body 3 0 None =
  match fetch w 0 with
  | Resolves r0 =>
      if ok r0 then (inr (Some r0), [Fetch body])
      else
        match fetch w 1 with
        | Resolves r1 =>
            if ok r1 then (inr (Some r1), [Fetch body; Fetch body])
            else
              match fetch w 2 with
              | Resolves r2 => (inr (Some r2), [Fetch body; Fetch body; Fetch body])
              | Rejects e2 => (inl e2, [Fetch body; Fetch body; Fetch body])
              end
        | Rejects _ =>
            match fetch w 2 with
            | Resolves r2 =>
                (inr (Some r2), [Fetch body; Fetch body; Sleep 2000; Fetch body])
            | Rejects e2 => (inl e2, [Fetch body; Fetch body; Sleep 2000; Fetch body])
            end
        end
  | Rejects _ =>
      match fetch w 1 with
      | Resolves r1 =>
          if ok r1 then (inr (Some r1), [Fetch body; Sleep 1000; Fetch body])
          else
            match fetch w 2 with
            | Resolves r2 =>
                (inr (Some r2), [Fetch body; Sleep 1000; Fetch body; Fetch body])
            | Rejects e2 => (inl e2, [Fetch body; Sleep 1000; Fetch body; Fetch body])
            end
      | Rejects _ =>
          match fetch w 2 with
          | Resolves r2 => (inr (Some r2), three_attempts body)
          | Rejects e2 => (inl e2, three_attempts body)
          end
      end
  end.
Proof.
  cbn [retry_loop].
  destruct (fetch w 0) as [e0|r0]; [|destruct (ok r0)];
    destruct (fetch w 1) as [e1|r1]; try destruct (ok r1);
    destruct (fetch w 2) as [e2|r2]; try destruct (ok r2); reflexivity.
Qed.

Lemma request_trace w body : snd (request w body) = snd (retry_loop w body 3 0 None).
Proof. unfold request. destruct (retry_loop w body 3 0 None). reflexivity. Qed.

Lemma request_outcome w body :
  fst (request w body) =
  match fst (retry_loop w body 3 0 None) with
  | inl e => inl e
  | inr response => read_response w response
  end.
Proof. unfold request. destruct (retry_loop w body 3 0 None). reflexivity. Qed.

Lemma request_bounds w body :
  1 ≤ fetch_count (snd (request w body)) ≤ 3
  ∧ waited (snd (request w body)) ≤ 3000.
Proof.
  rewrite request_trace, retry_loop_cases.
  destruct (fetch w 0) as [e0|r0]; [|destruct (ok r0)];
    destruct (fetch w 1) as [e1|r1]; try destruct (ok r1);
    destruct (fetch w 2) as [e2|r2]; vm_compute; repeat split; lia.
Qed.

(** X1.  Whatever the transport does, a request makes at least one and at
    most three calls of [fetch], and waits 3 seconds at most. *)
Theorem request_is_bounded (w : World) (body : JSValue) :
  1 ≤ fetch_count (snd (request w body)) ≤ 3
  ∧ waited (snd (request w body)) ≤ 3000.
Proof. apply request_bounds. Qed.

(** X2.  Only a call that throws is followed by a wait: when the first
    three calls are all answered, with whatever status, the request makes
    its calls one after the other without waiting. *)
Theorem answered_calls_are_not_spaced (w : World) (body : JSValue) :
  (∀ i, i < 3 → ∃ r, fetch w i = Resolves r) →
  waited (snd (request w body)) = 0
  ∧ ∀ ms, Sleep ms ∉ snd (request w body).
Proof.
  intros H.
  destruct (H 0 ltac:(lia)) as [r0 H0], (H 1 ltac:(lia)) as [r1 H1],
           (H 2 ltac:(lia)) as [r2 H2].
  rewrite request_trace, retry_loop_cases, H0, H1, H2.
  destruct (ok r0), (ok r1); cbn; (split; [reflexivity|]);
    intros ms Hin; repeat (apply elem_of_cons in Hin as [Hin|Hin]; [discriminate|]);
    inversion Hin.
Qed.

Lemma answered_calls_are_not_spaced_witness :
  waited (snd (request status_500 (payload populated 10))) = 0
  ∧ ∀ ms, Sleep ms ∉ snd (request status_500 (payload populated 10)).
Proof.
  apply (answered_calls_are_not_spaced status_500 (payload populated 10)).
  intros i _. eexists. reflexivity.
Defined.

(** X3.  The loop stops at the first successful response: when call [k]
    (of the three) is the first one answered with [response.ok], exactly
    [k + 1] calls are made and the request is the reading of that
    response. *)
Theorem first_ok_response_ends_the_loop (w : World) (body : JSValue) (k : nat) (r : Response) :
  k < 3 →
  fetch w k = Resolves r →
  ok r = true →
  (∀ j r', j < k → fetch w j = Resolves r' → ok r' = false) →
  fst (request w body) = read_response w (Some r)
  ∧ fetch_count (snd (request w body)) = S k.
Proof.
  intros Hk Hr Hok Hbefore.
  rewrite request_outcome, request_trace, retry_loop_cases.
  destruct k as [|[|[|k]]]; [| | |lia].
  - rewrite Hr, Hok. split; reflexivity.
  - destruct (fetch w 0) as [e0|r0] eqn:H0.
    + rewrite Hr, Hok. split; reflexivity.
    + rewrite (Hbefore 0 r0 ltac:(lia) H0), Hr, Hok. split; reflexivity.
  - destruct (fetch w 0) as [e0|r0] eqn:H0; [|rewrite (Hbefore 0 r0 ltac:(lia) H0)];
      (destruct (fetch w 1) as [e1|r1] eqn:H1; [|rewrite (Hbefore 1 r1 ltac:(lia) H1)]);
      rewrite Hr; split; reflexivity.
Qed.

(** The second call is refused, the third is answered with the batch. *)
Lemma first_ok_response_ends_the_loop_witness :
  fst (request (flaky [q0]) (payload populated 10)) =
    read_response (flaky [q0])
      (Some (mkResponse true (inr (envelope (batch_text [q0])))))
  ∧ fetch_count (snd (request (flaky [q0]) (payload populated 10))) = 3.
Proof.
  apply (first_ok_response_ends_the_loop (flaky [q0]) (payload populated 10) 2
           (mkResponse true (inr (envelope (batch_text [q0]))))).
  - lia.
  - reflexivity.
  - reflexivity.
  - intros j r' Hj Hf. destruct j as [|[|j]]; [discriminate | discriminate | lia].
Defined.

(** X4.  When the third call throws and no earlier call was answered with
    [response.ok], the request fails with the exception of the third call
    after three calls, also when an earlier call had brought a response
    back: that response is not read. *)
Theorem third_rejection_fails_the_request (w : World) (body : JSValue) (e2 : Exn) :
  fetch w 2 = Rejects e2 →
  (∀ j r, j < 2 → fetch w j = Resolves r → ok r = false) →
  fst (request w body) = inl e2
  ∧ fetch_count (snd (request w body)) = 3.
Proof.
  intros H2 Hbefore.
  rewrite request_outcome, request_trace, retry_loop_cases, H2.
  destruct (fetch w 0) as [e0|r0] eqn:H0; [|rewrite (Hbefore 0 r0 ltac:(lia) H0)];
    (destruct (fetch w 1) as [e1|r1] eqn:H1; [|rewrite (Hbefore 1 r1 ltac:(lia) H1)]);
    split; reflexivity.
Qed.

Lemma third_rejection_fails_the_request_witness :
  fst (request refused_then_down (payload populated 10)) = inl failed_to_fetch
  ∧ fetch_count (snd (request refused_then_down (payload populated 10))) = 3.
Proof.
  apply (third_rejection_fails_the_request refused_then_down (payload populated 10)
           failed_to_fetch).
  - reflexivity.
  - intros j r Hj Hf. destruct j as [|[|j]]; [|discriminate|lia].
    injection Hf as <-. reflexivity.
Defined.

(** ** Reading a successful response *)

(** X5.  A successful response without a first candidate (no [candidates],
    [null], an empty array) has no text: the request fails with the error of
    an empty or malformed response, after one call, and [JSON.parse] has no
    part in it. *)
Theorem response_without_candidate_is_malformed (w : World) (body : JSValue)
    (r : Response) (result : JSValue) :
  fetch w 0 = Resolves r →
  ok r = true →
  json r = inr result →
  nullish result = false →
  nullish (opt_index (prop result "candidates") 0) = true →
  request w body = (inl malformed, [Fetch body]).
Proof.
  intros H0 Hok Hj Hres Hcand.
  unfold request. rewrite (retry_loop_first_ok _ _ _ H0 Hok).
  cbn [read_response]. rewrite Hj. unfold jsonText_of, dot. rewrite Hres.
  destruct (opt_index (prop result "candidates") 0); try discriminate; reflexivity.
Qed.

Lemma response_without_candidate_is_malformed_witness :
  request answering_blocked (payload populated 30) =
  (inl malformed, [Fetch (payload populated 30)]).
Proof.
  apply (response_without_candidate_is_malformed answering_blocked (payload populated 30)
           (mkResponse true (inr (JObject [
              ("promptFeedback", JObject [("blockReason", JString "SAFETY")])])))
           (JObject [("promptFeedback", JObject [("blockReason", JString "SAFETY")])]));
    reflexivity.
Defined.

(** X6.  A successful response whose body cannot be decoded fails the
    request with the exception of [response.json()], and one whose body is
    [null] fails it with the [TypeError] of reading [candidates]; neither is
    tried again. *)
Theorem undecodable_body_fails_once (w : World) (body : JSValue) (r : Response) :
  fetch w 0 = Resolves r →
  ok r = true →
  (∀ e, json r = inl e → request w body = (inl e, [Fetch body]))
  ∧ (∀ result, json r = inr result → nullish result = true →
       request w body = (inl TypeError_nullish, [Fetch body])).
Proof.
  intros H0 Hok. unfold request. rewrite (retry_loop_first_ok _ _ _ H0 Hok).
  cbn [read_response]. split.
  - intros e ->. reflexivity.
  - intros result -> Hn. unfold jsonText_of, dot. rewrite Hn. reflexivity.
Qed.

Lemma undecodable_body_fails_once_witness :
  request answering_html (payload populated 30) =
    (inl syntax_error, [Fetch (payload populated 30)])
  ∧ request answering_null_body (payload populated 30) =
    (inl TypeError_nullish, [Fetch (payload populated 30)]).
Proof.
  split.
  - apply (proj1 (undecodable_body_fails_once answering_html (payload populated 30)
                    (mkResponse true (inl syntax_error)) eq_refl eq_refl)).
    reflexivity.
  - apply (proj2 (undecodable_body_fails_once answering_null_body (payload populated 30)
                    (mkResponse true (inr JNull)) eq_refl eq_refl) JNull);
      reflexivity.
Defined.

(** ** What a run leaves of the page *)

Lemma handleLoadMore_page w a quiz :
  fst (handleLoadMore w a quiz) =
  finish_run append_questions false (fst (request w (payload a 10)))
    (begin_run false (Live a quiz)).
Proof.
  unfold handleLoadMore. rewrite run_unfold. cbn [fst begin_run finish_run].
  destruct (render _ quiz); reflexivity.
Qed.

Lemma handleGenerate_page w a quiz :
  trim (topic a) ≠ "" →
  fst (handleGenerate w a quiz) =
  finish_run replace_questions true (fst (request w (payload a 30)))
    (begin_generate (Live a quiz)).
Proof.
  intros Ht. unfold handleGenerate, begin_generate. rewrite (topic_not_blank _ Ht).
  rewrite run_unfold. cbn [fst begin_run finish_run].
  change (payload (setQuizData (JArray []) (setHasGenerated true a)) 30) with (payload a 30).
  destruct (render _ quiz); reflexivity.
Qed.

(** The live page a load of more questions ends with. *)
Lemma handleLoadMore_live w a quiz a' quiz' :
  fst (handleLoadMore w a quiz) = Live a' quiz' →
  consistent a' quiz'
  ∧ a' = mkApp (topic a) (difficultyLevel a) (quizLanguage a) (quizData a')
               (loading a) false
               (match fst (request w (payload a 10)) with
                | inl _ => Some failure_message
                | inr _ => None
                end) (hasGenerated a)
  ∧ ((∃ e, fst (request w (payload a 10)) = inl e) → quizData a' = quizData a).
Proof.
  rewrite handleLoadMore_page. cbn [begin_run finish_run].
  destruct (render _ quiz) as [a1 q1|] eqn:Hr; [|discriminate].
  apply render_live in Hr as [-> _]. cbn [finish_run].
  destruct (fst (request w (payload a 10))) as [e|d].
  - rewrite conclude_failure. intros [= <- <-]. repeat split.
  - cbn [conclude]. unfold append_questions.
    destruct (spread _) as [prev|]; [|discriminate].
    destruct (spread d) as [new|]; [|discriminate].
    intros H. pose proof (render_consistent _ _ _ _ H) as Hc.
    apply render_live in H as [-> _]. split; [exact Hc|]. split; [reflexivity|].
    intros [e He]. discriminate.
Qed.

(** The live page a generation ends with. *)
Lemma handleGenerate_live w a quiz a' quiz' :
  trim (topic a) ≠ "" →
  fst (handleGenerate w a quiz) = Live a' quiz' →
  consistent a' quiz'
  ∧ a' = mkApp (topic a) (difficultyLevel a) (quizLanguage a) (quizData a')
               false (loadingMore a)
               (match fst (request w (payload a 30)) with
                | inl _ => Some failure_message
                | inr _ => None
                end) true.
Proof.
  intros Ht. rewrite (handleGenerate_page _ _ _ Ht).
  unfold begin_generate. rewrite (topic_not_blank _ Ht). cbn [begin_run finish_run].
  destruct (render _ quiz) as [a1 q1|] eqn:Hr; [|discriminate].
  apply render_live in Hr as [-> _]. cbn [finish_run].
  destruct (fst (request w (payload a 30))) as [e|d].
  - rewrite conclude_failure. intros [= <- <-]. repeat split.
  - cbn [conclude replace_questions].
    intros H. pose proof (render_consistent _ _ _ _ H) as Hc.
    apply render_live in H as [-> _]. split; [exact Hc|]. reflexivity.
Qed.

(** X7.  The [finally] of a run: on the page a run leaves, its own loading
    flag is down again, whether the request succeeded or failed, and the
    other flag, the topic, the difficulty and the language are the ones
    from before the run; a generation has set [hasGenerated], a load of
    more questions leaves it. *)
Theorem run_resets_its_loading_flag (w : World) (a : AppState) (quiz : Screen)
    (a' : AppState) (quiz' : Screen) :
  (fst (handleLoadMore w a quiz) = Live a' quiz' →
     loadingMore a' = false ∧ loading a' = loading a
     ∧ hasGenerated a' = hasGenerated a
     ∧ topic a' = topic a ∧ difficultyLevel a' = difficultyLevel a
     ∧ quizLanguage a' = quizLanguage a)
  ∧ (trim (topic a) ≠ "" → fst (handleGenerate w a quiz) = Live a' quiz' →
     loading a' = false ∧ loadingMore a' = loadingMore a
     ∧ hasGenerated a' = true
     ∧ topic a' = topic a ∧ difficultyLevel a' = difficultyLevel a
     ∧ quizLanguage a' = quizLanguage a).
Proof.
  split.
  - intros H. apply handleLoadMore_live in H as (_ & -> & _). repeat split.
  - intros Ht H. apply (handleGenerate_live _ _ _ _ _ Ht) in H as (_ & ->). repeat split.
Qed.

Lemma run_resets_its_loading_flag_witness :
  loadingMore (mkApp "sums" "Medium" "English" (JArray [to_js q0]) false false
                 (Some failure_message) true) = false
  ∧ loading (mkApp "sums" "Medium" "English" (JArray [to_js q1]) false true None true)
    = false.
Proof.
  split.
  - apply (proj1 (run_resets_its_loading_flag offline
                    (mkApp "sums" "Medium" "English" (JArray [to_js q0]) false false None true)
                    (Mounted one_answer)
                    (mkApp "sums" "Medium" "English" (JArray [to_js q0]) false false
                       (Some failure_message) true)
                    Unmounted)).
    reflexivity.
  - apply (proj2 (run_resets_its_loading_flag (serving [q1])
                    (mkApp "sums" "Medium" "English" (JArray [to_js q0]) false true None false)
                    (Mounted one_answer)
                    (mkApp "sums" "Medium" "English" (JArray [to_js q1]) false true None true)
                    (Mounted ∅))).
    + vm_compute. discriminate.
    + reflexivity.
Defined.

(** X8.  On the page a run leaves, the error tells how the request went: it
    is the failure message when the request failed, and [null] when it
    succeeded, whatever error was shown before the run. *)
Theorem error_tells_the_outcome (w : World) (a : AppState) (quiz : Screen)
    (a' : AppState) (quiz' : Screen) :
  (fst (handleLoadMore w a quiz) = Live a' quiz' →
     error a' = match fst (request w (payload a 10)) with
                | inl _ => Some failure_message
                | inr _ => None
                end)
  ∧ (trim (topic a) ≠ "" → fst (handleGenerate w a quiz) = Live a' quiz' →
     error a' = match fst (request w (payload a 30)) with
                | inl _ => Some failure_message
                | inr _ => None
                end).
Proof.
  split.
  - intros H. apply handleLoadMore_live in H as (_ & -> & _). reflexivity.
  - intros Ht H. apply (handleGenerate_live _ _ _ _ _ Ht) in H as (_ & ->). reflexivity.
Qed.

(** A generation that succeeds on a page that showed an error. *)
Lemma error_tells_the_outcome_witness :
  error (mkApp "sums" "Medium" "English" (JArray [to_js q1]) false false None true) =
  match fst (request (serving [q1])
               (payload (mkApp "sums" "Medium" "English" (JArray []) false false
                           (Some failure_message) true) 30)) with
  | inl _ => Some failure_message
  | inr _ => None
  end.
Proof.
  apply (proj2 (error_tells_the_outcome (serving [q1])
                  (mkApp "sums" "Medium" "English" (JArray []) false false
                     (Some failure_message) true)
                  Unmounted
                  (mkApp "sums" "Medium" "English" (JArray [to_js q1]) false false None true)
                  (Mounted ∅))).
  - vm_compute. discriminate.
  - reflexivity.
Defined.



(** X10.  A run whose request fails never calls [updateData]: it ends the
    same for every [updateData], with the failure logged once after the
    calls of the request. *)
Theorem failed_run_ignores_updateData (w : World) (count : nat) (isInitial : bool)
    (a : AppState) (quiz : Screen) (e : Exn)
    (updateData updateData' : JSValue → AppState → option AppState) :
  fst (request w (payload a count)) = inl e →
  _fetchQuizQuestions w count updateData isInitial a quiz =
  _fetchQuizQuestions w count updateData' isInitial a quiz
  ∧ snd (_fetchQuizQuestions w count updateData isInitial a quiz) =
    snd (request w (payload a count)) ++ [ConsoleError e].
Proof.
  intros He. rewrite !(run_failure _ _ _ _ _ _ _ He). split; reflexivity.
Qed.

Lemma failed_run_ignores_updateData_witness :
  _fetchQuizQuestions offline 10 append_questions false populated (Mounted one_answer) =
  _fetchQuizQuestions offline 10 replace_questions false populated (Mounted one_answer)
  ∧ snd (_fetchQuizQuestions offline 10 append_questions false populated (Mounted one_answer)) =
    snd (request offline (payload populated 10)) ++ [ConsoleError failed_to_fetch].
Proof.
  apply (failed_run_ignores_updateData offline 10 false populated (Mounted one_answer)
           failed_to_fetch append_questions replace_questions).
  reflexivity.
Defined.

(** ** The guard of a generation *)

Lemma trim_start_nil l : trim_start l = [] ↔ forallb is_white_space l = true.
Proof.
  induction l as [|c l IH]; cbn; [tauto|].
  destruct (is_white_space c); cbn; [exact IH|]. split; discriminate.
Qed.

Lemma trim_start_head l c l' : trim_start l = c :: l' → is_white_space c = false.
Proof.
  induction l as [|x l IH]; cbn; [discriminate|].
  destruct (is_white_space x) eqn:E; [exact IH|]. intros [= <- <-]. exact E.
Qed.

Lemma forallb_rev {A} (f : A → bool) l : forallb f (rev l) = forallb f l.
Proof.
  induction l as [|x l IH]; [reflexivity|].
  cbn. rewrite forallb_app, IH. cbn. rewrite andb_true_r. apply andb_comm.
Qed.

Lemma string_of_list_nil l : String.string_of_list_ascii l = "" ↔ l = [].
Proof. destruct l; cbn; split; congruence. Qed.

(** [s.trim()] is empty exactly when [s] holds white space only. *)
Lemma trim_empty s :
  trim s = "" ↔ forallb is_white_space (String.list_ascii_of_string s) = true.
Proof.
  unfold trim. rewrite string_of_list_nil.
  set (l := String.list_ascii_of_string s). split.
  - intros H. apply (f_equal (@rev _)) in H. rewrite rev_involutive in H. cbn in H.
    apply trim_start_nil in H. rewrite forallb_rev in H.
    destruct (trim_start l) as [|c l'] eqn:E; [apply trim_start_nil, E|].
    apply trim_start_head in E. cbn in H. rewrite E in H. discriminate.
  - intros H. apply trim_start_nil in H. rewrite H. reflexivity.
Qed.

(** X11.  [handleGenerate] does nothing exactly when the topic holds white
    space only (the empty topic included); with any other topic it makes a
    request, of one to three calls of [fetch], and the Generate button is
    disabled exactly when it would do nothing or a generation is loading. *)
Theorem generate_runs_unless_blank (w : World) (a : AppState) (quiz : Screen) :
  (snd (handleGenerate w a quiz) = [] ↔
     forallb is_white_space (String.list_ascii_of_string (topic a)) = true)
  ∧ (forallb is_white_space (String.list_ascii_of_string (topic a)) = false →
     1 ≤ fetch_count (snd (handleGenerate w a quiz)) ≤ 3)
  ∧ (generate_disabled a = false ↔
     loading a = false
     ∧ forallb is_white_space (String.list_ascii_of_string (topic a)) = false).
Proof.
  assert (∀ tr out, fetch_count (tr ++ logged out) = fetch_count tr) as Hlog.
  { intros tr [e|d]; unfold fetch_count; rewrite List.filter_app; cbn;
      rewrite length_app; cbn; lia. }
  assert (forallb is_white_space (String.list_ascii_of_string (topic a)) = false →
          1 ≤ fetch_count (snd (handleGenerate w a quiz)) ≤ 3) as Hrun.
  { intros Hb. unfold handleGenerate.
    rewrite topic_not_blank by (rewrite trim_empty, Hb; discriminate).
    rewrite run_unfold. cbn [snd]. rewrite Hlog. apply request_bounds. }
  split; [|split; [exact Hrun|]].
  - split.
    + intros Hnil.
      destruct (forallb _ _) eqn:Hb; [reflexivity|].
      specialize (Hrun eq_refl). rewrite Hnil in Hrun. cbn in Hrun. lia.
    + intros Hb. apply trim_empty in Hb.
      unfold handleGenerate. rewrite Hb. reflexivity.
  - unfold generate_disabled. rewrite orb_false_iff. cbn [truthy].
    rewrite negb_involutive.
    destruct (String.eqb (trim (topic a)) "") eqn:E.
    + apply String.eqb_eq, trim_empty in E. rewrite E. split; intros [? ?]; discriminate.
    + apply String.eqb_neq in E. rewrite trim_empty in E.
      destruct (forallb _ _); [contradiction|]. tauto.
Qed.

Lemma generate_runs_unless_blank_witness :
  1 ≤ fetch_count (snd (handleGenerate offline populated (Mounted one_answer))) ≤ 3.
Proof.
  apply (proj1 (proj2 (generate_runs_unless_blank offline populated (Mounted one_answer)))).
  reflexivity.
Defined.

(** ** What [QuizDisplay] makes of the parsed value *)

(** X12.  A generation whose request succeeds shows whatever [JSON.parse]
    returned, checked by nothing: the value becomes [quizData] as it is, and
    the page lives or is lost with the render of [QuizDisplay] on it, which
    starts without answers. *)
Theorem generation_shows_the_parsed_value (w : World) (a : AppState) (quiz : Screen)
    (parsedData : JSValue) :
  trim (topic a) ≠ "" →
  fst (request w (payload a 30)) = inr parsedData →
  fst (handleGenerate w a quiz) =
  match QuizDisplay parsedData ∅ with
  | Some _ =>
      Live (mkApp (topic a) (difficultyLevel a) (quizLanguage a) parsedData
                  false (loadingMore a) None true) (Mounted ∅)
  | None => Crashed
  end.
Proof.
  intros Ht Hreq. rewrite (handleGenerate_page _ _ _ Ht), Hreq.
  unfold begin_generate. rewrite (topic_not_blank _ Ht).
  cbn -[QuizDisplay]. destruct (QuizDisplay parsedData ∅); reflexivity.
Qed.

Lemma generation_shows_the_parsed_value_witness :
  fst (handleGenerate answering_null populated (Mounted one_answer)) =
  match QuizDisplay JNull ∅ with
  | Some _ =>
      Live (mkApp (topic populated) (difficultyLevel populated) (quizLanguage populated)
                  JNull false (loadingMore populated) None true) (Mounted ∅)
  | None => Crashed
  end.
Proof.
  apply (generation_shows_the_parsed_value answering_null populated (Mounted one_answer) JNull).
  - vm_compute. discriminate.
  - reflexivity.
Defined.

(** On anything but an array, [QuizDisplay] shows the placeholder or
    throws. *)
Lemma QuizDisplay_of_no_array quizData userAnswers :
  (∀ items, quizData ≠ JArray items) →
  QuizDisplay quizData userAnswers =
  if negb (truthy quizData) || strict_eq (length_of quizData) (JNumber 0)
  then Some NoQuestions else None.
Proof.
  intros Hna. unfold QuizDisplay.
  destruct (negb (truthy quizData) || strict_eq (length_of quizData) (JNumber 0));
    [reflexivity|].
  destruct quizData; try reflexivity. destruct (Hna items eq_refl).
Qed.

(** X13.  A generation whose text parses to something that is no array
    raises no error: when the value is falsy ([null], [false], 0, the empty
    string) the page shows the placeholder of an empty quiz, and when it is
    truthy without a [length] of 0 (an object such as an error report, a
    number, [true], a string) the render of [QuizDisplay] throws and the
    page is lost. *)
Theorem generation_of_no_array (w : World) (a : AppState) (quiz : Screen)
    (parsedData : JSValue) :
  trim (topic a) ≠ "" →
  fst (request w (payload a 30)) = inr parsedData →
  (∀ items, parsedData ≠ JArray items) →
  (truthy parsedData = false →
     fst (handleGenerate w a quiz) =
     Live (mkApp (topic a) (difficultyLevel a) (quizLanguage a) parsedData
                 false (loadingMore a) None true) (Mounted ∅)
     ∧ QuizDisplay parsedData ∅ = Some NoQuestions)
  ∧ (truthy parsedData = true → strict_eq (length_of parsedData) (JNumber 0) = false →
     fst (handleGenerate w a quiz) = Crashed).
Proof.
  intros Ht Hreq Hna.
  rewrite (handleGenerate_page _ _ _ Ht), Hreq.
  unfold begin_generate. rewrite (topic_not_blank _ Ht).
  cbn -[QuizDisplay]. rewrite (QuizDisplay_of_no_array _ _ Hna). split.
  - intros ->. split; reflexivity.
  - intros -> ->. reflexivity.
Qed.

Lemma generation_of_no_array_witness :
  (fst (handleGenerate answering_null populated (Mounted one_answer)) =
     Live (mkApp (topic populated) (difficultyLevel populated) (quizLanguage populated)
                 JNull false (loadingMore populated) None true) (Mounted ∅)
   ∧ QuizDisplay JNull ∅ = Some NoQuestions)
  ∧ fst (handleGenerate answering_object populated (Mounted one_answer)) = Crashed.
Proof.
  split.
  - apply (generation_of_no_array answering_null populated (Mounted one_answer) JNull).
    + vm_compute. discriminate.
    + reflexivity.
    + discriminate.
    + reflexivity.
  - apply (generation_of_no_array answering_object populated (Mounted one_answer)
             (JObject [])).
    + vm_compute. discriminate.
    + reflexivity.
    + discriminate.
    + reflexivity.
    + reflexivity.
Defined.

Lemma forEach_score_nullish userAnswers pre x post : ∀ index score,
  nullish x = true →
  forEach_score userAnswers (pre ++ x :: post) index score = None.
Proof.
  induction pre as [|q pre IH]; intros index score Hx.
  - cbn. unfold dot. rewrite Hx. reflexivity.
  - cbn. destruct (dot q "correctAnswer"); [reflexivity|]. apply IH, Hx.
Qed.

(** X14.  One [null] among the questions is enough to lose the page:
    [calculateScore] throws on it, so that [QuizDisplay] throws wherever
    [App] renders it. *)
Theorem null_question_crashes_the_page (a : AppState) (quiz : Screen)
    (pre post : list JSValue) (x : JSValue) :
  nullish x = true →
  quizData a = JArray (pre ++ x :: post) →
  shows_quiz a = true →
  calculateScore (quizData a) (answers quiz) = None
  ∧ render a quiz = Crashed.
Proof.
  intros Hx Hq Hs.
  assert (calculateScore (quizData a) (answers quiz) = None) as Hc.
  { rewrite Hq. apply forEach_score_nullish, Hx. }
  split; [exact Hc|].
  unfold render, QuizDisplay. rewrite Hs, Hc, Hq.
  cbn [truthy negb orb length_of strict_eq]. rewrite length_app. cbn [length].
  destruct (Z.of_nat (length pre + S (length post)) =? 0)%Z eqn:E; [|reflexivity].
  apply Z.eqb_eq in E. lia.
Qed.

Lemma null_question_crashes_the_page_witness :
  calculateScore (JArray [to_js q0; JNull]) one_answer = None
  ∧ render (mkApp "sums" "Medium" "English" (JArray [to_js q0; JNull]) false false None true)
           (Mounted one_answer) = Crashed.
Proof.
  apply (null_question_crashes_the_page
           (mkApp "sums" "Medium" "English" (JArray [to_js q0; JNull]) false false None true)
           (Mounted one_answer) [to_js q0] [] JNull); reflexivity.
Defined.

Lemma forEach_score_bounds userAnswers qs : ∀ index score result,
  forEach_score userAnswers qs index score = Some result →
  score ≤ result ≤ score + length qs.
Proof.
  induction qs as [|q qs IH]; intros index score result.
  - cbn. intros [= <-]. lia.
  - cbn. destruct (dot q "correctAnswer") as [|c]; [discriminate|].
    intros H. apply IH in H. destruct (strict_eq _ c); lia.
Qed.

(** X15.  Where [QuizDisplay] shows a quiz (and with it the button to load
    more questions), [quizData] is an array that is not empty, the total in
    the header is its length, and the score beside it is the one of
    [calculateScore], never above that total. *)
Theorem shown_quiz_is_an_array (quizData : JSValue) (userAnswers : Answers)
    (score total : nat) :
  QuizDisplay quizData userAnswers = Some (QuizView score total) →
  ∃ items, quizData = JArray items
    ∧ items ≠ []
    ∧ total = length items
    ∧ calculateScore quizData userAnswers = Some score
    ∧ score ≤ total.
Proof.
  unfold QuizDisplay.
  destruct (negb (truthy quizData) || strict_eq (length_of quizData) (JNumber 0)) eqn:E;
    [discriminate|].
  destruct (calculateScore quizData userAnswers) as [sc|] eqn:Hc; [|discriminate].
  destruct quizData as [| | | | |items|]; try discriminate.
  destruct (forallb id _); [|discriminate].
  intros [= <- <-]. exists items. split; [reflexivity|]. split.
  - intros ->. cbn in E. discriminate.
  - split; [reflexivity|]. split; [reflexivity|].
    apply forEach_score_bounds in Hc. lia.
Qed.

Lemma shown_quiz_is_an_array_witness :
  ∃ items, JArray [to_js q0; to_js q1] = JArray items
    ∧ items ≠ []
    ∧ 2 = length items
    ∧ calculateScore (JArray [to_js q0; to_js q1]) one_answer = Some 1
    ∧ 1 ≤ 2.
Proof.
  apply (shown_quiz_is_an_array (JArray [to_js q0; to_js q1]) one_answer 1 2).
  reflexivity.
Defined.

(** X16.  A load of more questions whose request succeeds with a value that
    cannot be spread (anything but an array or a string: an object, [null],
    a number, a boolean) loses the page: the updater of [setQuizData]
    throws. *)
Theorem load_more_of_no_list_crashes (w : World) (a : AppState) (quiz : Screen)
    (parsedData : JSValue) :
  fst (request w (payload a 10)) = inr parsedData →
  spread parsedData = None →
  fst (handleLoadMore w a quiz) = Crashed.
Proof.
  intros Hreq Hs. rewrite handleLoadMore_page, Hreq. cbn [begin_run].
  destruct (render _ quiz) as [a1 q1|]; [|reflexivity].
  cbn [finish_run conclude]. unfold append_questions. rewrite Hs.
  destruct (spread (quizData a1)); reflexivity.
Qed.

Lemma load_more_of_no_list_crashes_witness :
  fst (handleLoadMore answering_null populated (Mounted one_answer)) = Crashed.
Proof.
  apply (load_more_of_no_list_crashes answering_null populated (Mounted one_answer) JNull);
    reflexivity.
Defined.

(** ** Answers *)

Lemma isAnswered_None userAnswers i : userAnswers !! i = None → isAnswered userAnswers i = false.
Proof. intros H. unfold isAnswered, answer_at. rewrite H. reflexivity. Qed.

Lemma onClick_other userAnswers i j Y : i ≠ j → onClick i Y userAnswers !! j = userAnswers !! j.
Proof.
  intros Hij. unfold onClick, handleOptionClick.
  destruct (isAnswered userAnswers i); [reflexivity|]. apply lookup_insert_ne, Hij.
Qed.

Lemma isAnswered_other userAnswers i j Y :
  i ≠ j → isAnswered (onClick i Y userAnswers) j = isAnswered userAnswers j.
Proof. intros Hij. unfold isAnswered, answer_at. rewrite onClick_other by exact Hij. reflexivity. Qed.

(** X17.  The first click on an option of a question records that option
    as its answer, and a click on a question, first or not, never changes
    the answer of another question. *)
Theorem first_click_records_the_option (userAnswers : Answers) (i : nat) (Y : JSValue) :
  userAnswers !! i = None →
  onClick i Y userAnswers !! i = Some Y
  ∧ (∀ j Z, i ≠ j → onClick j Z userAnswers !! i = userAnswers !! i)
  ∧ (∀ j, i ≠ j → onClick i Y userAnswers !! j = userAnswers !! j).
Proof.
  intros Hi. split; [|split].
  - unfold onClick, handleOptionClick. rewrite (isAnswered_None _ _ Hi).
    apply lookup_insert_eq.
  - intros j Z Hij. apply onClick_other. congruence.
  - intros j Hij. apply onClick_other, Hij.
Qed.

Lemma first_click_records_the_option_witness :
  onClick 1 (JString "9") one_answer !! 1 = Some (JString "9")
  ∧ (∀ j Z, 1 ≠ j → onClick j Z one_answer !! 1 = one_answer !! 1)
  ∧ (∀ j, 1 ≠ j → onClick 1 (JString "9") one_answer !! j = one_answer !! j).
Proof.
  apply (first_click_records_the_option one_answer 1 (JString "9")). reflexivity.
Defined.

(** X18.  Clicks on two different questions can come in either order: the
    answers recorded are the same. *)
Theorem clicks_on_different_questions_commute (userAnswers : Answers) (i j : nat)
    (Y Z : JSValue) :
  i ≠ j →
  onClick i Y (onClick j Z userAnswers) = onClick j Z (onClick i Y userAnswers).
Proof.
  intros Hij. unfold onClick at 1 3.
  rewrite (isAnswered_other _ j i Z) by congruence.
  rewrite (isAnswered_other _ i j Y) by exact Hij.
  unfold onClick, handleOptionClick.
  destruct (isAnswered userAnswers i), (isAnswered userAnswers j); try reflexivity.
  apply insert_insert_ne. exact Hij.
Qed.

Lemma clicks_on_different_questions_commute_witness :
  onClick 1 (JString "9") (onClick 2 (JString "x") one_answer) =
  onClick 2 (JString "x") (onClick 1 (JString "9") one_answer).
Proof.
  apply (clicks_on_different_questions_commute one_answer 1 2 (JString "9") (JString "x")).
  discriminate.
Defined.

(** X19.  A click keeps the answers inside the quiz: an option can be
    clicked at an existing question only, so that answers recorded for the
    first [n] questions of a quiz of [n] questions stay so. *)
Theorem click_keeps_answers_in_range (a : AppState) (userAnswers : Answers)
    (items : list JSValue) (qIndex oIndex : nat) (a' : AppState) (quiz' : Screen) :
  quizData a = JArray items →
  in_range (length items) userAnswers →
  click qIndex oIndex (Live a (Mounted userAnswers)) = Live a' quiz' →
  a' = a ∧ in_range (length items) (answers quiz').
Proof.
  intros Hq Hr. unfold click, option_at. rewrite Hq.
  destruct (items !! qIndex) as [quizItem|] eqn:Hi;
    [|intros [= <- <-]; split; [reflexivity | exact Hr]].
  destruct (prop quizItem "options") as [| | | | |os|];
    try (intros [= <- <-]; split; [reflexivity | exact Hr]).
  destruct (os !! oIndex) as [option|];
    [|intros [= <- <-]; split; [reflexivity | exact Hr]].
  intros H. apply render_live in H as [-> ->]. split; [reflexivity|].
  assert (in_range (length items) (onClick qIndex option userAnswers)) as Hr'.
  { intros i Hs. destruct (decide (qIndex = i)) as [<-|Hne].
    - apply lookup_lt_Some in Hi. exact Hi.
    - rewrite onClick_other in Hs by exact Hne. apply Hr, Hs. }
  destruct (shows_quiz a); [exact Hr'|].
  intros i Hs. cbn in Hs. rewrite lookup_empty in Hs. destruct Hs as [? [=]].
Qed.

Lemma click_keeps_answers_in_range_witness :
  mkApp "sums" "Medium" "English" (JArray [to_js q0; to_js q1]) false false None true
  = mkApp "sums" "Medium" "English" (JArray [to_js q0; to_js q1]) false false None true
  ∧ in_range (length [to_js q0; to_js q1])
      (answers (Mounted (onClick 1 (JString "9") one_answer))).
Proof.
  apply (click_keeps_answers_in_range
           (mkApp "sums" "Medium" "English" (JArray [to_js q0; to_js q1]) false false None true)
           one_answer [to_js q0; to_js q1] 1 1).
  - reflexivity.
  - intros i [v Hv]. destruct i as [|i]; [cbn; lia|].
    unfold one_answer in Hv. rewrite lookup_singleton_ne in Hv by lia. discriminate.
  - reflexivity.
Defined.

(** ** The score *)









Lemma forEach_score_fresh qs : ∀ index score,
  Forall (fun q => nullish q = false ∧ prop q "correctAnswer" = JUndefined) qs →
  forEach_score ∅ qs index score = Some (score + length qs).
Proof.
  induction qs as [|q qs IH]; intros index score Hall.
  - cbn. f_equal. lia.
  - inversion Hall as [|? ? [Hn Hp] Hall']; subst.
    cbn. unfold dot. rewrite Hn, Hp.
    unfold answer_at. rewrite lookup_empty. cbn.
    rewrite IH by exact Hall'. f_equal. lia.
Qed.

(** X23.  Before any answer, a quiz of records scores 0; but a question
    that comes without a [correctAnswer] counts as answered correctly while
    it has no answer ([undefined === undefined]): a quiz of such questions
    starts with the full score. *)
Theorem unanswered_score (qs : list QuestionRecord) (items : list JSValue) :
  Forall (fun q => nullish q = false ∧ prop q "correctAnswer" = JUndefined) items →
  calculateScore (JArray (to_js <$> qs)) ∅ = Some 0
  ∧ calculateScore (JArray items) ∅ = Some (length items).
Proof.
  intros Hall. split.
  - rewrite calculateScore_records. f_equal. unfold correctCount.
    rewrite (List.filter_ext (is_correct qs ∅) (fun _ => false)).
    + induction (seq 0 (length qs)); [reflexivity | assumption].
    + intros j. unfold is_correct. rewrite lookup_empty. destruct (qs !! j); reflexivity.
  - unfold calculateScore. apply (forEach_score_fresh items 0 0 Hall).
Qed.

Lemma unanswered_score_witness :
  calculateScore (JArray (to_js <$> [q0; q1])) ∅ = Some 0
  ∧ calculateScore (JArray [JObject [("question", JString "?"); ("options", JArray [])]]) ∅
    = Some (length [JObject [("question", JString "?"); ("options", JArray [])]]).
Proof.
  apply (unanswered_score [q0; q1]
           [JObject [("question", JString "?"); ("options", JArray [])]]).
  repeat constructor.
Defined.

(** ** Events between the two halves of a run *)

Lemma shows_quiz_begin_load_more a :
  shows_quiz (setError None (set_flag false true a)) = hasGenerated a && negb (loading a).
Proof. unfold shows_quiz. cbn. apply andb_true_r. Qed.

Lemma option_at_record qs i q oIndex :
  qs !! i = Some q →
  option_at (JArray (to_js <$> qs)) i oIndex = JString <$> options q !! oIndex.
Proof.
  intros Hq. unfold option_at. rewrite list_lookup_fmap, Hq. cbn.
  apply list_lookup_fmap.
Qed.

(** X24.  An answer given while more questions are loading is kept: with a
    click on an option between the start of a load and its successful end,
    the page ends with the old questions followed by the batch and with the
    answers as the click left them. *)
Theorem click_during_load_is_kept (a : AppState) (userAnswers : Answers)
    (qs rs : list QuestionRecord) (i oIndex : nat) (q : QuestionRecord) (y : string) :
  quizData a = JArray (to_js <$> qs) →
  shows_quiz a = true →
  qs !! i = Some q →
  options q !! oIndex = Some y →
  finish_run append_questions false (inr (JArray (to_js <$> rs)))
    (click i oIndex (begin_run false (Live a (Mounted userAnswers)))) =
  Live (mkApp (topic a) (difficultyLevel a) (quizLanguage a)
              (JArray (to_js <$> (qs ++ rs))) false false None true)
       (Mounted (onClick i (JString y) userAnswers)).
Proof.
  intros Hq Hs Hi Ho.
  assert (hasGenerated a = true ∧ loading a = false) as [Hg Hl].
  { unfold shows_quiz in Hs. apply andb_true_iff in Hs as [Hs _].
    apply andb_true_iff in Hs as [Hg Hl]. apply negb_true_iff in Hl. auto. }
  cbn [begin_run].
  rewrite (render_records _ _ qs) by exact Hq.
  rewrite shows_quiz_begin_load_more, Hg, Hl. cbn [negb andb answers].
  unfold click.
  change (quizData (setError None (set_flag false true a))) with (quizData a).
  rewrite Hq, (option_at_record _ _ _ _ Hi), Ho. cbn [fmap option_fmap option_map].
  rewrite (render_records _ _ qs) by exact Hq.
  rewrite (shows_quiz_begin_load_more a), Hg, Hl. cbn [negb andb answers].
  cbn [finish_run conclude]. unfold append_questions.
  change (quizData (setError None (set_flag false true a))) with (quizData a).
  rewrite Hq. cbn [spread].
  rewrite <- fmap_app.
  rewrite (render_records _ _ (qs ++ rs)) by reflexivity.
  unfold shows_quiz. cbn. rewrite Hg, Hl. cbn.
  unfold setLoadingMore, setQuizData, setError. cbn. rewrite Hg, Hl. reflexivity.
Qed.

Lemma click_during_load_is_kept_witness :
  finish_run append_questions false (inr (JArray (to_js <$> [q1])))
    (click 0 2 (begin_run false (Live populated (Mounted ∅)))) =
  Live (mkApp (topic populated) (difficultyLevel populated) (quizLanguage populated)
              (JArray (to_js <$> ([q0] ++ [q1]))) false false None true)
       (Mounted (onClick 0 (JString "5") ∅)).
Proof.
  apply (click_during_load_is_kept populated ∅ [q0] [q1] 0 2 q0 "5"); reflexivity.
Defined.

(** X25.  Nothing cancels a load of more questions when a new generation
    starts.  With a load in flight, a new topic typed and a generation
    started: if the generation ends first, the batch of the load, asked for
    the old topic, is appended to the new quiz when it arrives; if the load
    ends first, its batch is replaced by the new quiz.  Either way the quiz
    starts without answers. *)
Theorem load_is_not_cancelled_by_generation (a : AppState) (quiz : Screen)
    (t : string) (qs rs ms : list QuestionRecord) :
  quizData a = JArray (to_js <$> qs) →
  trim t ≠ "" →
  let started := begin_generate (change_topic t (begin_run false (Live a quiz))) in
  finish_run append_questions false (inr (JArray (to_js <$> ms)))
    (finish_run replace_questions true (inr (JArray (to_js <$> rs))) started) =
  Live (mkApp t (difficultyLevel a) (quizLanguage a) (JArray (to_js <$> (rs ++ ms)))
              false false None true) (Mounted ∅)
  ∧ finish_run replace_questions true (inr (JArray (to_js <$> rs)))
      (finish_run append_questions false (inr (JArray (to_js <$> ms))) started) =
    Live (mkApp t (difficultyLevel a) (quizLanguage a) (JArray (to_js <$> rs))
                false false None true) (Mounted ∅).
Proof.
  intros Hq Ht started.
  assert (started =
          Live (mkApp t (difficultyLevel a) (quizLanguage a) (JArray [])
                      true true None true) Unmounted) as ->.
  { unfold started. cbn [begin_run].
    rewrite (render_records _ _ qs) by exact Hq.
    cbn [change_topic].
    rewrite (render_records _ _ qs) by exact Hq.
    unfold begin_generate. cbn [topic setTopic].
    assert (negb (truthy (JString (trim t))) = false) as ->.
    { cbn. apply String.eqb_neq in Ht. rewrite Ht. reflexivity. }
    cbn [begin_run]. rewrite (render_records _ _ []) by reflexivity.
    reflexivity. }
  split.
  - cbn [finish_run conclude replace_questions].
    rewrite (render_records _ _ rs) by reflexivity.
    cbn [finish_run conclude]. unfold append_questions.
    cbn [set_flag setLoading setQuizData quizData spread]. rewrite <- fmap_app.
    rewrite (render_records _ _ (rs ++ ms)) by reflexivity. reflexivity.
  - cbn [finish_run conclude]. unfold append_questions.
    cbn [quizData spread app].
    rewrite (render_records _ _ ms) by reflexivity.
    cbn [finish_run conclude replace_questions].
    rewrite (render_records _ _ rs) by reflexivity. reflexivity.
Qed.

Lemma load_is_not_cancelled_by_generation_witness :
  finish_run append_questions false (inr (JArray (to_js <$> [q_bad])))
    (finish_run replace_questions true (inr (JArray (to_js <$> [q1])))
       (begin_generate (change_topic "products"
          (begin_run false (Live populated (Mounted one_answer)))))) =
  Live (mkApp "products" (difficultyLevel populated) (quizLanguage populated)
              (JArray (to_js <$> ([q1] ++ [q_bad]))) false false None true) (Mounted ∅).
Proof.
  apply (load_is_not_cancelled_by_generation populated (Mounted one_answer) "products"
           [q0] [q1] [q_bad]).
  - reflexivity.
  - vm_compute. discriminate.
Defined.

(** ** The colours of the options *)

(** X26.  The colours give the correct answer away only once the question
    is answered.  Without an answer every option takes the plain branch,
    whatever the option and the correct answer are.  With an answer, the
    green option is exactly the correct one, and the red option is exactly
    the selected one when it is not correct: a correct choice shows no
    red. *)
Theorem colours_follow_the_answer (s o c : string) (option correct : JSValue) :
  highlight JUndefined option correct = Plain
  ∧ (highlight (JString s) (JString o) (JString c) = Green ↔ o = c)
  ∧ (highlight (JString s) (JString o) (JString c) = Red ↔ o = s ∧ o ≠ c)
  ∧ (s = c → highlight (JString s) (JString o) (JString c) ≠ Red).
Proof.
  assert (highlight (JString s) (JString o) (JString c) =
          if String.eqb o c then Green
          else if String.eqb s o then Red else Gray) as ->.
  { unfold highlight. cbn. destruct (String.eqb o c), (String.eqb s o); reflexivity. }
  split; [destruct option; reflexivity|].
  destruct (String.eqb_spec o c) as [Eoc|Eoc], (String.eqb_spec s o) as [Eso|Eso];
    (split; [|split]);
    try (split; [intros; congruence | intros; congruence]);
    try (split; [discriminate | intros [? ?]; congruence]);
    try (split; [intros _; split; congruence | reflexivity]);
    try (intros; congruence); try discriminate.
Qed.

Lemma colours_follow_the_answer_witness :
  highlight (JString "4") (JString "4") (JString "4") ≠ Red
  ∧ highlight (JString "5") (JString "5") (JString "4") = Red.
Proof.
  split.
  - apply (proj2 (proj2 (proj2
             (colours_follow_the_answer "4" "4" "4" (JString "4") (JString "4"))))).
    reflexivity.
  - apply (proj2 (proj1 (proj2 (proj2
             (colours_follow_the_answer "5" "5" "4" (JString "5") (JString "4")))))).
    split; [reflexivity | discriminate].
Defined.

(** ** [StreamingText] *)

Module StreamingFacts.
Import StreamingText.






Lemma tick_undefined lag st : tick None lag st = tick (Some "") lag st.
Proof. unfold tick, piece. destruct (i st + lag); reflexivity. Qed.

Lemma ticks_undefined lags : ∀ st, ticks None lags st = ticks (Some "") lags st.
Proof.
  induction lags as [|lag lags IH]; intros st; [reflexivity|].
  cbn. rewrite tick_undefined. apply IH.
Qed.

Lemma ticks_cleared text lags : ∀ st, cleared st = true → ticks text lags st = st.
Proof.
  induction lags as [|lag lags IH]; intros st Hc; [reflexivity|].
  cbn. unfold tick. rewrite Hc. apply IH, Hc.
Qed.

(** The run of the callback from a live interval: [i] counts the calls up
    to the length of the text (one call for an empty text), where the
    interval is cleared. *)
Lemma ticks_count text lags : ∀ st,
  cleared st = false →
  i st < Nat.max 1 (text_length text) →
  i (ticks text lags st) = Nat.min (i st + length lags) (Nat.max 1 (text_length text))
  ∧ (cleared (ticks text lags st) = true ↔
     Nat.max 1 (text_length text) ≤ i st + length lags).
Proof.
  induction lags as [|lag lags IH]; intros st Hc Hi.
  - cbn. rewrite Hc. split; [lia|]. split; [discriminate | lia].
  - cbn [ticks length]. unfold tick. rewrite Hc.
    destruct (text_length text <=? S (i st)) eqn:E.
    + apply Nat.leb_le in E. rewrite ticks_cleared by reflexivity. cbn.
      split; [lia|]. split; [lia | reflexivity].
    + apply Nat.leb_gt in E.
      destruct (IH (mkStream (S (i st)) (displayed st +:+ piece text (i st + lag)) false))
        as [Hn Hcl]; [reflexivity | cbn; lia |].
      cbn [i] in Hn, Hcl. rewrite Hn, Hcl. split; [lia|]. split; lia.
Qed.


End StreamingFacts.

(** X27.  Whatever the text, and whenever React runs the updaters, the
    callback of the interval runs once per character of the text and then
    clears the interval; for an empty or missing text it runs once.  After
    [m] runs of the timer [i] is [min m (max 1 n)], and the interval is
    cleared exactly from the run number [max 1 n] on. *)
Theorem interval_runs_once_per_character (text : option string) (lags : list nat)
    (st : StreamingText.Stream) :
  let n := StreamingText.text_length text in
  let final := StreamingText.ticks text lags (StreamingText.start st) in
  StreamingText.i final = Nat.min (length lags) (Nat.max 1 n)
  ∧ (StreamingText.cleared final = true ↔ Nat.max 1 n ≤ length lags).
Proof.
  cbn zeta.
  destruct (StreamingFacts.ticks_count text lags (StreamingText.start st))
    as [Hn Hc]; [reflexivity | cbn; lia |].
  cbn [StreamingText.i StreamingText.start] in Hn, Hc. split; assumption.
Qed.






